(** * Snapchat Memories Downloader: a shallow embedding of
      [download_snapchat_memories.py] and the properties of its
      download-orchestration layer.

    Conventions of the embedding.
    - A Python [str] is a Rocq [string]; case mapping and the whitespace
      class are given on the ASCII range.
    - A call that may raise returns a [py_result]; [try/except Exception]
      is [try_except].
    - The standard library and third-party calls the program makes
      (urllib, datetime, zipfile, requests, BeautifulSoup) are the fields of
      the class [PyLib]; every theorem holds for every behaviour of them.
      The builtin [hash] of the interpreter is a separate argument, since
      its secret key is drawn anew by each process.
    - Object state ([self.downloaded_files], [self.stats]), the files of the
      output directory and the observable events (requests, sleeps, progress
      bar, lock-protected updates) live in one [World] record threaded
      through the methods.
    - Writes below the output directory (media files, the state file, the
      failure log) succeed; the network and the archive reader are where
      failures come from.  Console output is not kept, except the warning of
      a failed archive extraction.
    - The scheduler is the one of [self.workers == 1]; the interleavings of
      the thread pool of [_run_parallel] are outside the embedding. *)

From Stdlib Require Import ZArith Ascii String List Bool Lia.
From stdpp Require Import base option gmap strings pretty.

Local Open Scope Z_scope.

(** stdpp freezes [String.append] under [simpl]; the proofs below compute
    with it. *)
#[local] Arguments String.append !_ _ / : simpl nomatch.


(** ** Python [str] primitives used by the program *)

Module PyStr.

(** [s[:n]] *)
Fixpoint take (n : nat) (s : string) : string :=
  match n, s with
  | S k, String c s' => String c (take k s')
  | _, _ => EmptyString
  end.

(** [s.startswith(p)], returning what follows the prefix. *)
Fixpoint strip_prefix (p s : string) : option string :=
  match p, s with
  | EmptyString, _ => Some s
  | String a p', String b s' =>
      if Ascii.eqb a b then strip_prefix p' s' else None
  | String _ _, EmptyString => None
  end.

Definition startswith (p s : string) : bool :=
  match strip_prefix p s with Some _ => true | None => false end.

(** [s.endswith(suffix)] *)
Fixpoint endswith (suffix s : string) : bool :=
  if String.eqb suffix s then true
  else match s with
       | EmptyString => false
       | String _ s' => endswith suffix s'
       end.

(** [s.replace(old, new)] for a non-empty [old]: a left-to-right scan
    over non-overlapping occurrences.  [skip] counts the characters of an
    occurrence already replaced that are still to be passed over. *)
Fixpoint replace_go (old new : string) (skip : nat) (s : string) : string :=
  match s with
  | EmptyString => EmptyString
  | String c s' =>
      match skip with
      | S k => replace_go old new k s'
      | O =>
          if startswith old s
          then new +:+ replace_go old new (Nat.pred (String.length old)) s'
          else String c (replace_go old new O s')
      end
  end.

Definition replace (old new s : string) : string := replace_go old new O s.

Definition lower_char (c : ascii) : ascii :=
  let n := nat_of_ascii c in
  if (65 <=? n)%nat && (n <=? 90)%nat then ascii_of_nat (n + 32) else c.

(** [s.lower()] *)
Fixpoint lower (s : string) : string :=
  match s with
  | EmptyString => EmptyString
  | String c s' => String (lower_char c) (lower s')
  end.

(** The whitespace class of [str.strip()] and of [\s]: 9-13, 28-32. *)
Definition is_space (c : ascii) : bool :=
  let n := nat_of_ascii c in
  ((9 <=? n)%nat && (n <=? 13)%nat) || ((28 <=? n)%nat && (n <=? 32)%nat).

Fixpoint lstrip (s : string) : string :=
  match s with
  | String c s' => if is_space c then lstrip s' else s
  | EmptyString => EmptyString
  end.

Fixpoint rstrip (s : string) : string :=
  match s with
  | EmptyString => EmptyString
  | String c s' =>
      match rstrip s' with
      | EmptyString => if is_space c then EmptyString else String c EmptyString
      | r => String c r
      end
  end.

(** [s.strip()] *)
Definition strip (s : string) : string := rstrip (lstrip s).

(** [s.split(sep, 1)] for a one-character [sep]: the text before the
    first separator and, when there is one, the text after it. *)
Fixpoint split_once (sep : ascii) (s : string) : string * option string :=
  match s with
  | EmptyString => (EmptyString, None)
  | String c s' =>
      if Ascii.eqb c sep then (EmptyString, Some s')
      else let '(a, b) := split_once sep s' in (String c a, b)
  end.

(** Python truthiness of a [str]. *)
Definition truthy (s : string) : bool :=
  match s with EmptyString => false | String _ _ => true end.

(** [str(n)] for an [int]. *)
Definition of_int (n : Z) : string := pretty n.

End PyStr.

(** ** Exceptions and results *)

(** The program only ever catches [Exception] as a whole and reads
    [str(e)]; an exception is kept as the library that raised it and its
    message. *)
Inductive exn : Type :=
| LibError (msg : string)      (* raised inside a library call *)
| IndexError                   (* [xs[0]] on an empty list *)
| EmptyDownload.               (* [Exception("Downloaded file is empty")] *)

Definition str_of_exn (e : exn) : string :=
  match e with
  | LibError msg => msg
  | IndexError => "list index out of range"
  | EmptyDownload => "Downloaded file is empty"
  end.

Inductive py_result (A : Type) : Type :=
| Ret (a : A)
| Raise (e : exn).
Arguments Ret {A} a.
Arguments Raise {A} e.

Definition try_except {A} (body : py_result A) (handler : exn -> py_result A)
  : py_result A :=
  match body with
  | Ret a => Ret a
  | Raise e => handler e
  end.

Definition rbind {A B} (r : py_result A) (k : A -> py_result B) : py_result B :=
  match r with
  | Ret a => k a
  | Raise e => Raise e
  end.

(** ** Data of the program *)

Definition bytes := list Byte.byte.

(** An entry of the list [parse_html] returns. *)
Record Memory : Type := {
  url : string;
  date : string;
  media_type : string;
  is_get_request : bool
}.

(** [requests.Response], as far as the program reads it. *)
Record Response : Type := {
  status_code : Z;
  content : bytes;
  text : string
}.

(** The requests the program issues. *)
Inductive Request : Type :=
| GetRouted (u : string)                 (* GET with header X-Snap-Route-Tag: mem-dmd *)
| PostForm (base : string) (data : string) (* POST, form-urlencoded body *)
| GetPlain (u : string).                 (* GET with the session headers only *)

(** A table cell as BeautifulSoup exposes it to [parse_html]:
    [get_text(strip=True)] and the [onclick] attribute of the first
    [<a onclick=...>] inside the cell, if any. *)
Record Cell : Type := {
  cell_text : string;
  cell_onclick : option string
}.

(** The external calls of the program. *)
Class PyLib : Type := {
  datetime : Type;
  (** [urlparse(url).query] *)
  urlparse_query : string -> py_result string;
  (** [parse_qs(query)] *)
  parse_qs : string -> py_result (gmap string (list string));
  (** [datetime.strptime(s, '%Y-%m-%d %H:%M:%S')] *)
  strptime : string -> py_result datetime;
  (** [dt.strftime('%Y-%m-%d_%H-%M-%S')] *)
  strftime : datetime -> py_result string;
  (** [zipfile.is_zipfile(path)] on a file with the given content *)
  is_zipfile : bytes -> bool;
  (** [ZipFile(path).namelist()], or the exception opening the archive *)
  zip_namelist : bytes -> py_result (list string);
  (** [zf.read(name)] *)
  zip_read : bytes -> string -> py_result bytes;
  (** The answer of the network to the [n]-th request of the process. *)
  http : nat -> Request -> py_result Response;
  (** [str] of the [HTTPError] that [raise_for_status] builds *)
  http_error_message : Response -> string;
  (** [BeautifulSoup(text).find_all('tr')], each row as its [td] cells *)
  soup_rows : string -> list (list Cell)
}.

(** ** Identity and naming *)

Section Naming.
Context {lib : PyLib}.
(** [hash] of the running interpreter. *)
Variable py_hash : string -> Z.

(** [extract_sid_from_url] *)
Definition extract_sid_from_url (u : string) : py_result (option string) :=
  try_except
    (rbind (urlparse_query u) (fun query =>
     rbind (parse_qs query) (fun params =>
     match params !! "sid" with
     | None => Ret None                      (* default [[None]], element 0 *)
     | Some vs =>
         match vs with
         | v :: _ => Ret (Some v)
         | [] => Raise IndexError
         end
     end)))
    (fun _ => Ret None).

(** The value bound to [sid] by [sid = self.extract_sid_from_url(url)]. *)
Definition sid_of (u : string) : option string :=
  match extract_sid_from_url u with
  | Ret r => r
  | Raise _ => None
  end.

(** [if sid:] *)
Definition sid_truthy (sid : option string) : bool :=
  match sid with
  | Some s => PyStr.truthy s
  | None => false
  end.

(** The string handed to [strptime]. *)
Definition clean_date (d : string) : string := PyStr.replace " UTC" "" d.

(** The [try] block at the head of [generate_filename]. *)
Definition date_part (m : Memory) : string :=
  match try_except
          (rbind (strptime (clean_date (date m))) strftime)
          (fun _ => Ret "unknown_date") with
  | Ret s => s
  | Raise _ => "unknown_date"
  end.

(** The value of a [sid] that passed [if sid:]. *)
Definition sid_value (sid : option string) : string := default "" sid.

Definition unique_part (m : Memory) : string :=
  let sid := sid_of (url m) in
  if sid_truthy sid
  then PyStr.take 16 (sid_value sid)
  else PyStr.take 16 (PyStr.of_int (py_hash (url m))).

Definition extension (m : Memory) : string :=
  let mt := PyStr.lower (media_type m) in
  if String.eqb mt "video" then "mp4"
  else if String.eqb mt "image" then "jpg"
  else "bin".

(** [generate_filename] *)
Definition generate_filename (m : Memory) : string :=
  date_part m +:+ "_" +:+ unique_part m +:+ "." +:+ extension m.

End Naming.

(** ** The world the methods act on *)

Inductive Counter : Type := Successful | Failed | Skipped.

Inductive LockName : Type := StateLock | StatsLock.

(** A [pathlib.Path] below the output directory: parent and name. *)
Definition Path : Type := string * string.

Definition path_str (p : Path) : string := fst p +:+ "/" +:+ snd p.

(** What [download_state.json] holds. *)
Inductive StateFile : Type :=
| Unreadable                           (* [json.load] raises on it *)
| Saved (mapping : gmap string string).

Section Downloader.
Context {lib : PyLib}.
Variable py_hash : string -> Z.

(** Observable actions, in the order they happen. *)
Inductive Event : Type :=
| EvRequest (r : Request)
| EvBackoff (seconds : Z)              (* [time.sleep(2 ** attempt)] *)
| EvPace                               (* [time.sleep(self.delay)] *)
| EvStat (c : Counter) (locked : bool) (* [self.stats[c] += 1]; was [stats_lock] held? *)
| EvSaveState
| EvLogFailure (u : string) (msg : string)
| EvWarn (e : exn)
| EvPostfix (s : string)               (* [pbar.set_postfix_str] *)
| EvUpdate.                            (* [pbar.update(1)] *)

(** File operations on the output directory, in the order they happen. *)
Inductive FsOp : Type :=
| OpWrite (p : Path) (data : bytes)    (* [open(p, 'wb')] and [f.write(data)] *)
| OpUnlink (p : Path)
| OpRename (src dst : Path).

Record Stats : Type := {
  total : Z;
  successful : Z;
  failed : Z;
  skipped : Z
}.

Record World : Type := {
  downloaded_files : gmap string string;
  stats : Stats;
  files : gmap Path bytes;
  state_file : option StateFile;
  failed_log : list (string * string);
  stats_lock_held : bool;
  state_lock_held : bool;
  requests_made : nat;
  fs_log : list FsOp;
  trace : list Event
}.

(** [__init__] arguments the methods read. *)
Record Config : Type := {
  images_dir : string;
  videos_dir : string;
  max_retries : Z
}.

Variable cfg : Config.

(** *** State and exceptions *)

Definition M (A : Type) : Type := World -> py_result A * World.

Definition ret {A} (a : A) : M A := fun w => (Ret a, w).
Definition raise {A} (e : exn) : M A := fun w => (Raise e, w).
Definition bind {A B} (c : M A) (k : A -> M B) : M B :=
  fun w => match c w with
           | (Ret a, w') => k a w'
           | (Raise e, w') => (Raise e, w')
           end.
Definition try_catch {A} (body : M A) (handler : exn -> M A) : M A :=
  fun w => match body w with
           | (Ret a, w') => (Ret a, w')
           | (Raise e, w') => handler e w'
           end.
Definition get : M World := fun w => (Ret w, w).
Definition modify (f : World -> World) : M unit := fun w => (Ret tt, f w).
Definition lift {A} (r : py_result A) : M A := fun w => (r, w).

Notation "x <- c1 ;; c2" := (bind c1 (fun x => c2))
  (at level 100, c1 at next level, right associativity).
Notation "c1 ;; c2" := (bind c1 (fun _ => c2))
  (at level 100, right associativity).

Definition set_downloaded_files (d : gmap string string) (w : World) : World :=
  {| downloaded_files := d; stats := stats w; files := files w;
     state_file := state_file w; failed_log := failed_log w;
     stats_lock_held := stats_lock_held w; state_lock_held := state_lock_held w;
     requests_made := requests_made w; fs_log := fs_log w;
     trace := trace w |}.
Definition set_stats (s : Stats) (w : World) : World :=
  {| downloaded_files := downloaded_files w; stats := s; files := files w;
     state_file := state_file w; failed_log := failed_log w;
     stats_lock_held := stats_lock_held w; state_lock_held := state_lock_held w;
     requests_made := requests_made w; fs_log := fs_log w;
     trace := trace w |}.
Definition set_files (f : gmap Path bytes) (w : World) : World :=
  {| downloaded_files := downloaded_files w; stats := stats w; files := f;
     state_file := state_file w; failed_log := failed_log w;
     stats_lock_held := stats_lock_held w; state_lock_held := state_lock_held w;
     requests_made := requests_made w; fs_log := fs_log w;
     trace := trace w |}.
Definition set_state_file (s : option StateFile) (w : World) : World :=
  {| downloaded_files := downloaded_files w; stats := stats w; files := files w;
     state_file := s; failed_log := failed_log w;
     stats_lock_held := stats_lock_held w; state_lock_held := state_lock_held w;
     requests_made := requests_made w; fs_log := fs_log w;
     trace := trace w |}.
Definition set_failed_log (l : list (string * string)) (w : World) : World :=
  {| downloaded_files := downloaded_files w; stats := stats w; files := files w;
     state_file := state_file w; failed_log := l;
     stats_lock_held := stats_lock_held w; state_lock_held := state_lock_held w;
     requests_made := requests_made w; fs_log := fs_log w;
     trace := trace w |}.
Definition set_lock (l : LockName) (b : bool) (w : World) : World :=
  {| downloaded_files := downloaded_files w; stats := stats w; files := files w;
     state_file := state_file w; failed_log := failed_log w;
     stats_lock_held := match l with StatsLock => b | StateLock => stats_lock_held w end;
     state_lock_held := match l with StateLock => b | StatsLock => state_lock_held w end;
     requests_made := requests_made w; fs_log := fs_log w;
     trace := trace w |}.
Definition set_requests_made (n : nat) (w : World) : World :=
  {| downloaded_files := downloaded_files w; stats := stats w; files := files w;
     state_file := state_file w; failed_log := failed_log w;
     stats_lock_held := stats_lock_held w; state_lock_held := state_lock_held w;
     requests_made := n; fs_log := fs_log w; trace := trace w |}.
Definition set_trace (t : list Event) (w : World) : World :=
  {| downloaded_files := downloaded_files w; stats := stats w; files := files w;
     state_file := state_file w; failed_log := failed_log w;
     stats_lock_held := stats_lock_held w; state_lock_held := state_lock_held w;
     requests_made := requests_made w; fs_log := fs_log w; trace := t |}.

Definition set_fs_log (l : list FsOp) (w : World) : World :=
  {| downloaded_files := downloaded_files w; stats := stats w; files := files w;
     state_file := state_file w; failed_log := failed_log w;
     stats_lock_held := stats_lock_held w; state_lock_held := state_lock_held w;
     requests_made := requests_made w; fs_log := l; trace := trace w |}.

Definition emit (e : Event) : M unit :=
  modify (fun w => set_trace (trace w ++ [e]) w).

(** [with lock: body]; the lock is released on every exit. *)
Definition with_lock {A} (l : LockName) (body : M A) : M A :=
  fun w => match body (set_lock l true w) with
           | (r, w') => (r, set_lock l false w')
           end.

Definition bump (c : Counter) (s : Stats) : Stats :=
  match c with
  | Successful => {| total := total s; successful := successful s + 1;
                     failed := failed s; skipped := skipped s |}
  | Failed => {| total := total s; successful := successful s;
                 failed := failed s + 1; skipped := skipped s |}
  | Skipped => {| total := total s; successful := successful s;
                  failed := failed s; skipped := skipped s + 1 |}
  end.

(** [self.stats[c] += 1] *)
Definition inc_stat (c : Counter) : M unit :=
  w <- get ;;
  modify (set_stats (bump c (stats w))) ;;
  emit (EvStat c (stats_lock_held w)).

(** *** Files of the output directory *)

Definition fs_op (op : FsOp) : M unit :=
  modify (fun w => set_fs_log (fs_log w ++ [op]) w).

(** [with open(p, 'wb') as f: f.write(data)] *)
Definition write_file (p : Path) (data : bytes) : M unit :=
  modify (fun w => set_files (<[p := data]> (files w)) w) ;;
  fs_op (OpWrite p data).

(** [p.exists() and p.stat().st_size > 0] *)
Definition exists_nonempty (w : World) (p : Path) : bool :=
  match files w !! p with
  | Some (_ :: _) => true
  | _ => false
  end.

(** [save_state] *)
Definition save_state : M unit :=
  with_lock StateLock
    (w <- get ;;
     modify (set_state_file (Some (Saved (downloaded_files w)))) ;;
     emit EvSaveState).

(** [log_failure]; the wall-clock stamp of the entry is not kept. *)
Definition log_failure (u error : string) : M unit :=
  modify (fun w => set_failed_log (failed_log w ++ [(u, error)]) w) ;;
  emit (EvLogFailure u error).

(** [self.downloaded_files[sid] = str(output_path)] *)
Definition record_download (sid : string) (p : Path) : M unit :=
  modify (fun w => set_downloaded_files (<[sid := path_str p]> (downloaded_files w)) w).

(** *** Network *)

(** [self.session.get] / [self.session.post]: the [n]-th request of the
    process gets the answer [http n]. *)
Definition request (r : Request) : M Response :=
  w <- get ;;
  modify (set_requests_made (S (requests_made w))) ;;
  emit (EvRequest r) ;;
  lift (http (requests_made w) r).

(** [response.raise_for_status()] *)
Definition raise_for_status (r : Response) : M unit :=
  if (400 <=? status_code r) && (status_code r <? 600)
  then raise (LibError (http_error_message r))
  else ret tt.

(** *** Archive normalisation *)

Definition is_main_name (name : string) : bool :=
  PyStr.endswith "-main.jpg" name || PyStr.endswith "-main.mp4" name.

(** The [for name in zf.namelist()] loop with its [break]. *)
Definition find_main_file (names : list string) : option string :=
  List.find is_main_name names.

Definition temp_path_of (file_path : Path) : Path :=
  (fst file_path, "temp_" +:+ snd file_path).

(** [file_path.unlink()] *)
Definition unlink (p : Path) : M unit :=
  w <- get ;;
  match files w !! p with
  | Some _ => modify (set_files (delete p (files w))) ;; fs_op (OpUnlink p)
  | None => raise (LibError "FileNotFoundError")
  end.

(** [src.rename(dst)] *)
Definition rename (src dst : Path) : M unit :=
  w <- get ;;
  match files w !! src with
  | Some data =>
      modify (set_files (<[dst := data]> (delete src (files w)))) ;;
      fs_op (OpRename src dst)
  | None => raise (LibError "FileNotFoundError")
  end.

(** [_extract_zip_if_needed] *)
Definition _extract_zip_if_needed (file_path : Path) : M unit :=
  try_catch
    (w <- get ;;
     match files w !! file_path with
     | None => ret tt                 (* [is_zipfile] is False on a missing file *)
     | Some data =>
         if is_zipfile data then
           names <- lift (zip_namelist data) ;;
           match find_main_file names with
           | Some main_file =>
               if PyStr.truthy main_file then
                 let temp_path := temp_path_of file_path in
                 write_file temp_path [] ;;           (* [open(temp_path, 'wb')] *)
                 payload <- lift (zip_read data main_file) ;;
                 write_file temp_path payload ;;
                 unlink file_path ;;
                 rename temp_path file_path
               else ret tt
           | None => ret tt
           end
         else ret tt
     end)
    (fun e => emit (EvWarn e)).

(** *** Transfer *)

(** [sid and sid in self.downloaded_files] *)
Definition known (sid : option string) (w : World) : bool :=
  sid_truthy sid &&
  match downloaded_files w !! sid_value sid with
  | Some _ => true
  | None => false
  end.

Definition output_path_of (m : Memory) : Path :=
  let filename := generate_filename py_hash m in
  if String.eqb (PyStr.lower (media_type m)) "video"
  then (videos_dir cfg, filename)
  else (images_dir cfg, filename).

(** The two arms of [if is_get_request], up to the write of the file. *)
Definition transfer (m : Memory) (output_path : Path) : M unit :=
  if is_get_request m then
    response <- request (GetRouted (url m)) ;;
    raise_for_status response ;;
    write_file output_path (content response)
  else
    let '(base_url, rest) := PyStr.split_once "?" (url m) in
    let params := match rest with Some p => p | None => "" end in
    response <- request (PostForm base_url params) ;;
    raise_for_status response ;;
    let download_url := PyStr.strip (text response) in
    download_response <- request (GetPlain download_url) ;;
    raise_for_status download_response ;;
    write_file output_path (content download_response).

(** [if sid: ... self.downloaded_files[sid] = ...; self.save_state()] of the
    success path. *)
Definition record_success (sid : option string) (output_path : Path) : M unit :=
  if sid_truthy sid then
    with_lock StateLock (record_download (sid_value sid) output_path) ;;
    save_state
  else ret tt.

(** The body of the [try] of one attempt; it returns (True) or raises. *)
Definition attempt_body (m : Memory) (sid : option string) (output_path : Path)
  : M bool :=
  transfer m output_path ;;
  w <- get ;;
  if exists_nonempty w output_path then
    _extract_zip_if_needed output_path ;;
    record_success sid output_path ;;
    with_lock StatsLock (inc_stat Successful) ;;
    ret true
  else raise EmptyDownload.

Definition failure_message (e : exn) : string :=
  "Failed after " +:+ PyStr.of_int (max_retries cfg) +:+ " attempts: "
    +:+ str_of_exn e.

(** [for attempt in range(self.max_retries)], entered at [attempt] with
    [remaining] iterations to go, and the [return False] after the loop. *)
Fixpoint retry_loop (m : Memory) (sid : option string) (output_path : Path)
    (remaining : nat) (attempt : Z) : M bool :=
  match remaining with
  | O => ret false
  | S k =>
      try_catch (attempt_body m sid output_path)
        (fun e =>
           if attempt <? max_retries cfg - 1 then
             emit (EvBackoff (2 ^ attempt)) ;;
             retry_loop m sid output_path k (attempt + 1)
           else
             log_failure (url m) (failure_message e) ;;
             with_lock StatsLock (inc_stat Failed) ;;
             ret false)
  end.

(** [download_file] *)
Definition download_file (m : Memory) : M bool :=
  let sid := sid_of (url m) in
  w <- get ;;
  if known sid w then
    with_lock StatsLock (inc_stat Skipped) ;;
    ret true
  else
    let output_path := output_path_of m in
    if exists_nonempty w output_path then
      (if sid_truthy sid then
         record_download (sid_value sid) output_path ;;
         save_state
       else ret tt) ;;
      inc_stat Skipped ;;
      ret true
    else
      retry_loop m sid output_path (Z.to_nat (max_retries cfg)) 0.

(** *** Scheduler *)

(** [_run_sequential]: the loop over [enumerate(memories)], at index [i]
    of a list of [n] memories. *)
Fixpoint run_sequential_from (n : Z) (i : Z) (memories : list Memory) : M unit :=
  match memories with
  | [] => ret tt
  | memory :: rest =>
      emit (EvPostfix (media_type memory +:+ " - " +:+ PyStr.take 10 (date memory))) ;;
      success <- download_file memory ;;
      emit EvUpdate ;;
      (if (i <? n - 1) && success then emit EvPace else ret tt) ;;
      run_sequential_from n (i + 1) rest
  end.

Definition _run_sequential (memories : list Memory) : M unit :=
  run_sequential_from (Z.of_nat (List.length memories)) 0 memories.

End Downloader.


(** ** Descriptor extraction *)

(** [re.search(r"downloadMemories\('(.+?)',\s*this,\s*(true|false)\)", s)]
    by the backtracking order of the [re] module: leftmost start, then the
    shortest non-empty group 1 free of newlines after which the rest of the
    pattern matches. *)
Module Directive.

(** [',\s*this,\s*(true|false)\)] at the head of [s]; the text of group 2.
    Each [\s*] is followed by a literal that no whitespace starts, so the
    greedy choice is the only one that can succeed. *)
Definition match_tail (s : string) : option string :=
  match PyStr.strip_prefix "'," s with
  | Some s1 =>
      match PyStr.strip_prefix "this," (PyStr.lstrip s1) with
      | Some s2 =>
          let s3 := PyStr.lstrip s2 in
          if PyStr.startswith "true)" s3 then Some "true"
          else if PyStr.startswith "false)" s3 then Some "false"
          else None
      | None => None
      end
  | None => None
  end.

Definition is_newline (c : ascii) : bool := Ascii.eqb c "010".

(** [(.+?)] followed by the tail, at the head of [s]. *)
Fixpoint lazy_group (s : string) : option (string * string) :=
  match s with
  | EmptyString => None
  | String c rest =>
      if is_newline c then None
      else match match_tail rest with
           | Some flag => Some (String c EmptyString, flag)
           | None =>
               match lazy_group rest with
               | Some (g, flag) => Some (String c g, flag)
               | None => None
               end
           end
  end.

Definition match_here (s : string) : option (string * string) :=
  match PyStr.strip_prefix "downloadMemories('" s with
  | Some rest => lazy_group rest
  | None => None
  end.

(** Groups 1 and 2 of the first match, if any. *)
Fixpoint search (s : string) : option (string * string) :=
  match match_here s with
  | Some r => Some r
  | None =>
      match s with
      | EmptyString => None
      | String _ s' => search s'
      end
  end.

End Directive.

Section Extractor.
Context {lib : PyLib}.

(** The body of [for row in rows] of [parse_html]: the memory appended
    for the row, if any. *)
Definition parse_row (cells : list Cell) : option Memory :=
  if (4 <=? List.length cells)%nat then
    match cells !! 0%nat, cells !! 1%nat, cells !! 3%nat with
    | Some c0, Some c1, Some c3 =>
        match cell_onclick c3 with
        | Some onclick =>
            match Directive.search onclick with
            | Some (u, flag) =>
                Some {| url := u;
                        date := cell_text c0;
                        media_type := cell_text c1;
                        is_get_request := String.eqb flag "true" |}
            | None => None
            end
        | None => None
        end
    | _, _, _ => None
    end
  else None.

(** [parse_html], on the text of the export. *)
Definition parse_html (html : string) : list Memory :=
  omap parse_row (soup_rows html).

End Extractor.

(** ** A run of the program *)

(** What a process finds in, and leaves in, the output directory. *)
Record Disk : Type := {
  disk_files : gmap Path bytes;
  disk_state_file : option StateFile;
  disk_failed_log : list (string * string)
}.

Section Run.
Context {lib : PyLib}.
Variable py_hash : string -> Z.
Variable cfg : Config.

(** [load_state] *)
Definition load_state (sf : option StateFile) : gmap string string :=
  match sf with
  | Some (Saved mapping) => mapping
  | Some Unreadable => ∅
  | None => ∅
  end.

(** [__init__] *)
Definition init_world (d : Disk) : World :=
  {| downloaded_files := load_state (disk_state_file d);
     stats := {| total := 0; successful := 0; failed := 0; skipped := 0 |};
     files := disk_files d;
     state_file := disk_state_file d;
     failed_log := disk_failed_log d;
     stats_lock_held := false;
     state_lock_held := false;
     requests_made := O;
     fs_log := [];
     trace := [] |}.

Definition disk_of (w : World) : Disk :=
  {| disk_files := files w;
     disk_state_file := state_file w;
     disk_failed_log := failed_log w |}.

Definition set_total (n : Z) (s : Stats) : Stats :=
  {| total := n; successful := successful s; failed := failed s;
     skipped := skipped s |}.

(** [run] with [self.workers == 1]; [html] is the text of the export. *)
Definition run (html : string) : M unit :=
  let memories := parse_html html in
  bind (modify (fun w =>
          set_stats (set_total (Z.of_nat (List.length memories)) (stats w)) w))
    (fun _ =>
       match memories with
       | [] => ret tt
       | _ :: _ => _run_sequential py_hash cfg memories
       end).

(** One process: [__init__] on the directory as found, then [run]. *)
Definition run_process (html : string) (d : Disk) : World :=
  snd (run html (init_world d)).

End Run.

(** ** A reference behaviour of the libraries

    The general theorems hold for every [PyLib].  The examples and the
    counterexamples need one: urllib and datetime as CPython behaves on
    canonical input (no percent-escapes, zero-padded timestamps), and a
    network, a set of archives and an export document given as tables. *)

Module Ref.

Record DateTime : Type := {
  year : Z; month : Z; day : Z; hour : Z; minute : Z; second : Z
}.

(** The query of a URL: after the first [?] and before the first [#]. *)
Definition query_of (u : string) : string :=
  match snd (PyStr.split_once "?" (fst (PyStr.split_once "#" u))) with
  | Some q => q
  | None => ""
  end.

Fixpoint split_all (sep : ascii) (s : string) : list string :=
  match s with
  | EmptyString => [EmptyString]
  | String c s' =>
      if Ascii.eqb c sep then EmptyString :: split_all sep s'
      else match split_all sep s' with
           | x :: xs => String c x :: xs
           | [] => [String c EmptyString]
           end
  end.

Fixpoint plus_to_space (s : string) : string :=
  match s with
  | EmptyString => EmptyString
  | String c s' =>
      String (if Ascii.eqb c "+" then " "%char else c) (plus_to_space s')
  end.

(** [parse_qs] with its defaults: fields split at [&], a field without
    [=] or with an empty value is dropped, values of a repeated name are
    collected in order. *)
Definition parse_qs_fields (fields : list string) : gmap string (list string) :=
  fold_left
    (fun acc field =>
       match PyStr.split_once "=" field with
       | (name, Some value) =>
           if PyStr.truthy value then
             let k := plus_to_space name in
             <[k := default [] (acc !! k) ++ [plus_to_space value]]> acc
           else acc
       | (_, None) => acc
       end)
    fields ∅.

Definition digit (c : ascii) : option Z :=
  let n := nat_of_ascii c in
  if (48 <=? n)%nat && (n <=? 57)%nat then Some (Z.of_nat n - 48) else None.

Fixpoint number (acc : Z) (s : string) : option Z :=
  match s with
  | EmptyString => Some acc
  | String c s' =>
      match digit c with
      | Some d => number (10 * acc + d) s'
      | None => None
      end
  end.

Definition field (start len : nat) (s : string) : option Z :=
  number 0 (String.substring start len s).

Definition is_leap (y : Z) : bool :=
  ((y mod 4 =? 0) && negb (y mod 100 =? 0)) || (y mod 400 =? 0).

Definition days_in_month (y m : Z) : Z :=
  if m =? 2 then (if is_leap y then 29 else 28)
  else if (m =? 4) || (m =? 6) || (m =? 9) || (m =? 11) then 30
  else 31.

Definition separators_ok (s : string) : bool :=
  match String.get 4 s, String.get 7 s, String.get 10 s,
        String.get 13 s, String.get 16 s with
  | Some a, Some b, Some c, Some d, Some e =>
      Ascii.eqb a "-" && Ascii.eqb b "-" && Ascii.eqb c " " &&
      Ascii.eqb d ":" && Ascii.eqb e ":"
  | _, _, _, _, _ => false
  end.

(** [strptime] with ['%Y-%m-%d %H:%M:%S'] on zero-padded input. *)
Definition parse_datetime (s : string) : py_result DateTime :=
  if negb ((String.length s =? 19)%nat && separators_ok s)
  then Raise (LibError "time data does not match format")
  else
    match field 0 4 s, field 5 2 s, field 8 2 s,
          field 11 2 s, field 14 2 s, field 17 2 s with
    | Some y, Some mo, Some d, Some h, Some mi, Some sec =>
        if (1 <=? y) && (1 <=? mo) && (mo <=? 12) &&
           (1 <=? d) && (d <=? days_in_month y mo) &&
           (h <=? 23) && (mi <=? 59) && (sec <=? 59)
        then Ret {| year := y; month := mo; day := d;
                    hour := h; minute := mi; second := sec |}
        else Raise (LibError "time data does not match format")
    | _, _, _, _, _, _ => Raise (LibError "time data does not match format")
    end.

Definition pad2 (n : Z) : string :=
  if n <? 10 then "0" +:+ PyStr.of_int n else PyStr.of_int n.

Definition pad4 (n : Z) : string :=
  if n <? 10 then "000" +:+ PyStr.of_int n
  else if n <? 100 then "00" +:+ PyStr.of_int n
  else if n <? 1000 then "0" +:+ PyStr.of_int n
  else PyStr.of_int n.

(** [strftime] with ['%Y-%m-%d_%H-%M-%S'] *)
Definition format_datetime (dt : DateTime) : string :=
  pad4 (year dt) +:+ "-" +:+ pad2 (month dt) +:+ "-" +:+ pad2 (day dt)
    +:+ "_" +:+ pad2 (hour dt) +:+ "-" +:+ pad2 (minute dt)
    +:+ "-" +:+ pad2 (second dt).

Fixpoint bytes_eqb (a b : bytes) : bool :=
  match a, b with
  | [], [] => true
  | x :: a', y :: b' => Byte.eqb x y && bytes_eqb a' b'
  | _, _ => false
  end.

(** An archive of the table: the file content and its entries, each
    with what [zf.read] gives for it. *)
Definition Archive : Type := bytes * list (string * py_result bytes).

Definition find_archive (archives : list Archive) (data : bytes)
  : option (list (string * py_result bytes)) :=
  match List.find (fun a => bytes_eqb (fst a) data) archives with
  | Some a => Some (snd a)
  | None => None
  end.

Definition read_entry (entries : list (string * py_result bytes)) (name : string)
  : py_result bytes :=
  match List.find (fun e => String.eqb (fst e) name) entries with
  | Some e => snd e
  | None => Raise (LibError "There is no item named in the archive")
  end.

Definition lib (net : nat -> Request -> py_result Response)
    (archives : list Archive) (doc : string -> list (list Cell)) : PyLib :=
  {| datetime := DateTime;
     urlparse_query := fun u => Ret (query_of u);
     parse_qs := fun q => Ret (parse_qs_fields (split_all "&" q));
     strptime := parse_datetime;
     strftime := fun dt => Ret (format_datetime dt);
     is_zipfile := fun data =>
       match find_archive archives data with Some _ => true | None => false end;
     zip_namelist := fun data =>
       match find_archive archives data with
       | Some entries => Ret (List.map fst entries)
       | None => Raise (LibError "File is not a zip file")
       end;
     zip_read := fun data name =>
       match find_archive archives data with
       | Some entries => read_entry entries name
       | None => Raise (LibError "File is not a zip file")
       end;
     http := net;
     http_error_message := fun r => PyStr.of_int (status_code r) +:+ " Error";
     soup_rows := doc |}.

End Ref.

(** ** The properties, in the words of the specification *)

Module PyStrSpec.

(** [old in s] *)
Fixpoint contains (old s : string) : bool :=
  PyStr.startswith old s ||
  match s with
  | EmptyString => false
  | String _ s' => contains old s'
  end.

End PyStrSpec.

Section SpecWords.
Context {lib : PyLib}.
Variable py_hash : string -> Z.
Variable cfg : Config.

(** *** Naming: "optionally suffixed UTC, stripped before parsing" *)

(** The timestamp without one trailing [" UTC"], if it has one. *)
Definition strip_utc_suffix (d : string) : string :=
  if PyStr.endswith " UTC" d
  then PyStr.take (String.length d - 4) d
  else d.

Definition spec_date_part (m : Memory) : string :=
  match rbind (strptime (strip_utc_suffix (date m))) strftime with
  | Ret s => s
  | Raise _ => "unknown_date"
  end.

(** [derive_target] as the specification words it. *)
Definition spec_generate_filename (m : Memory) : string :=
  spec_date_part m +:+ "_" +:+ unique_part py_hash m +:+ "." +:+ extension m.

(** *** Transfer modes: "Direct: single GET; Indirect: POST, then GET of
    the URL in the response body" *)

(** [raise_for_status] lets the response through. *)
Definition status_ok (r : Response) : bool :=
  negb ((400 <=? status_code r) && (status_code r <? 600)).

(** The requests of the POST-then-GET protocol on [u], when the POST is
    the [n]-th request of the process: the POST of the query string to the
    base URL and, when it is answered without error status, the GET of the
    URL in the answer. *)
Definition indirect_requests (u : string) (n : nat) : list Event :=
  let '(base_url, rest) := PyStr.split_once "?" u in
  let post := PostForm base_url (default "" rest) in
  EvRequest post ::
    match http n post with
    | Ret response =>
        if status_ok response
        then [EvRequest (GetPlain (PyStr.strip (text response)))]
        else []
    | Raise _ => []
    end.

(** *** Scheduler: "sleeping after each success, no delay after a failure
    or the final item" *)







(** *** Retry bound *)

(** What the retry policy is about in a trace: the start of an attempt
    (its first request), a backoff sleep, the failure record and a counter
    update. *)
Inductive Mark : Type :=
| MAttempt
| MBackoff (seconds : Z)
| MLogFailure
| MStat (c : Counter).

Definition mark_of (e : Event) : option Mark :=
  match e with
  | EvRequest (GetRouted _) => Some MAttempt
  | EvRequest (PostForm _ _) => Some MAttempt
  | EvBackoff s => Some (MBackoff s)
  | EvLogFailure _ _ => Some MLogFailure
  | EvStat c _ => Some (MStat c)
  | _ => None
  end.

Definition skeleton (evs : list Event) : list Mark := omap mark_of evs.

(** [2^0, 2^1, ..., 2^(n-2)] *)
Definition backoff_delays (n : Z) : list Z :=
  List.map (fun i => 2 ^ Z.of_nat i) (List.seq 0 (Z.to_nat (n - 1))).

(** [n] attempts, the delays between consecutive ones, then one failure
    record and one update of [failed]. *)
Definition failing_schedule (n : Z) : list Mark :=
  List.flat_map (fun d => [MAttempt; MBackoff d]) (backoff_delays n)
    ++ [MAttempt; MLogFailure; MStat Failed].

Definition count_attempts (marks : list Mark) : nat :=
  List.length (List.filter
    (fun k => match k with MAttempt => true | _ => false end) marks).

Definition delays_of (marks : list Mark) : list Z :=
  omap (fun k => match k with MBackoff s => Some s | _ => None end) marks.

Definition attempts (evs : list Event) : nat := count_attempts (skeleton evs).

Definition backoffs (evs : list Event) : list Z := delays_of (skeleton evs).

(** The call gets as far as the retry loop. *)
Definition reaches_transfer (m : Memory) (w : World) : Prop :=
  known (sid_of (url m)) w = false /\
  exists_nonempty w (output_path_of py_hash cfg m) = false.

(** The transfer of [m] fails on every attempt. *)
Definition always_fails (m : Memory) : Prop :=
  forall w, exists e w',
    attempt_body m (sid_of (url m)) (output_path_of py_hash cfg m) w
    = (Raise e, w').

Definition retry_bound (m : Memory) (w : World) : Prop :=
  exists w' evs msg,
    download_file py_hash cfg m w = (Ret false, w') /\
    trace w' = trace w ++ evs /\
    skeleton evs = failing_schedule (max_retries cfg) /\
    Z.of_nat (attempts evs) = max_retries cfg /\
    backoffs evs = backoff_delays (max_retries cfg) /\
    failed_log w' = failed_log w ++ [(url m, msg)] /\
    stats w' = bump Failed (stats w).

(** *** Outcomes of one call *)

(** The counter updates in a trace, each with whether [stats_lock] was
    held. *)
Definition stat_updates (evs : list Event) : list (Counter * bool) :=
  omap (fun e => match e with EvStat c l => Some (c, l) | _ => None end) evs.

(** The State Store, the counters and the failure log are as before. *)
Definition same_books (w w' : World) : Prop :=
  downloaded_files w' = downloaded_files w /\
  state_file w' = state_file w /\
  stats w' = stats w /\
  failed_log w' = failed_log w.

(** Nothing was transferred or written. *)
Definition same_io (w w' : World) : Prop :=
  files w' = files w /\
  fs_log w' = fs_log w /\
  requests_made w' = requests_made w.

(** The State Store after [if sid: record and save]. *)
Definition recorded (sid : option string) (p : Path) (w w' : World) : Prop :=
  if sid_truthy sid then
    downloaded_files w' = <[sid_value sid := path_str p]> (downloaded_files w) /\
    state_file w' = Some (Saved (downloaded_files w'))
  else
    downloaded_files w' = downloaded_files w /\
    state_file w' = state_file w.

(** The terminal states of the executor, and the fall-through of an
    empty retry loop. *)
Inductive Outcome : Type :=
| SkippedKnown
| SkippedOnDisk
| Succeeded
| FailedTerminal
| NoAttempt.

(** What a call with outcome [o] returned and did, from [w] to [w'] with
    the events [evs]. *)
Definition outcome_holds (o : Outcome) (m : Memory) (w w' : World)
    (b : bool) (evs : list Event) : Prop :=
  let sid := sid_of (url m) in
  let p := output_path_of py_hash cfg m in
  match o with
  | SkippedKnown =>
      known sid w = true /\ b = true /\
      stats w' = bump Skipped (stats w) /\
      downloaded_files w' = downloaded_files w /\
      state_file w' = state_file w /\
      failed_log w' = failed_log w /\
      same_io w w' /\
      evs = [EvStat Skipped true]
  | SkippedOnDisk =>
      known sid w = false /\ exists_nonempty w p = true /\ b = true /\
      stats w' = bump Skipped (stats w) /\
      recorded sid p w w' /\
      failed_log w' = failed_log w /\
      same_io w w' /\
      stat_updates evs = [(Skipped, stats_lock_held w)]
  | Succeeded =>
      known sid w = false /\ exists_nonempty w p = false /\ b = true /\
      1 <= max_retries cfg /\
      stats w' = bump Successful (stats w) /\
      recorded sid p w w' /\
      failed_log w' = failed_log w /\
      stat_updates evs = [(Successful, true)]
  | FailedTerminal =>
      known sid w = false /\ exists_nonempty w p = false /\ b = false /\
      1 <= max_retries cfg /\
      stats w' = bump Failed (stats w) /\
      downloaded_files w' = downloaded_files w /\
      state_file w' = state_file w /\
      (exists e, failed_log w' = failed_log w ++ [(url m, failure_message cfg e)]) /\
      stat_updates evs = [(Failed, true)]
  | NoAttempt =>
      known sid w = false /\ exists_nonempty w p = false /\ b = false /\
      max_retries cfg <= 0 /\
      w' = w /\ evs = []
  end.

(** What is on disk of the State Store is what the process holds. *)
Definition state_saved (w : World) : Prop :=
  downloaded_files w = load_state (state_file w).

(** *** Counters *)


Definition processed (s : Stats) : Z := successful s + skipped s + failed s.

(** The calls that came back [True]. *)
Definition succeeded (s : Stats) : Z := successful s + skipped s.

(** The call takes the branch "file already exists on disk". *)
Definition skipped_on_disk (m : Memory) (w : World) : Prop :=
  known (sid_of (url m)) w = false /\
  exists_nonempty w (output_path_of py_hash cfg m) = true.

(** *** Idempotence *)

(** Every descriptor of the first run succeeded: each call came back
    with one of [successful], [skipped] moved. *)
Definition all_succeeded (w : World) : Prop :=
  succeeded (stats w) = total (stats w).

End SpecWords.

(** ** Concrete inputs for the examples *)

Module Sample.

(** [hash] in two processes, that is under two hash secrets. *)
Definition hash_a : string -> Z := fun _ => 5880283874328509306.
Definition hash_b : string -> Z := fun _ => -1490021852725673943.

(** A network that is down, and one that serves a one-byte payload (and
    a download URL to a POST). *)
Definition net_down : nat -> Request -> py_result Response :=
  fun _ _ => Raise (LibError "ConnectionError").

Definition net_up : nat -> Request -> py_result Response :=
  fun _ r =>
    match r with
    | PostForm _ _ =>
        Ret {| status_code := 200; content := [];
               text := "https://cdn.example/media/1 " |}
    | _ => Ret {| status_code := 200; content := [Byte.xff]; text := "" |}
    end.

Definition no_rows : string -> list (list Cell) := fun _ => [].

Definition lib_down : PyLib := Ref.lib net_down [] no_rows.
Definition lib_up : PyLib := Ref.lib net_up [] no_rows.

(** A world in which nothing has happened yet. *)
Definition fresh : World :=
  {| downloaded_files := ∅;
     stats := {| total := 0; successful := 0; failed := 0; skipped := 0 |};
     files := ∅;
     state_file := None;
     failed_log := [];
     stats_lock_held := false;
     state_lock_held := false;
     requests_made := O;
     fs_log := [];
     trace := [] |}.

Definition with_sid : Memory :=
  {| url := "https://app.snapchat.com/dmd/memories?uid=7&sid=0a1b2c3d4e5f6a7b8c9d&ts=1";
     date := "2021-03-04 05:06:07 UTC";
     media_type := "Image";
     is_get_request := true |}.

Definition without_sid : Memory :=
  {| url := "https://app.snapchat.com/dmd/memories?uid=7";
     date := "2021-03-04 05:06:07 UTC";
     media_type := "Video";
     is_get_request := false |}.

(** A timestamp with [" UTC"] in the middle. *)
Definition utc_inside : Memory :=
  {| url := "https://app.snapchat.com/dmd/memories?uid=7&sid=0a1b2c3d4e5f6a7b8c9d&ts=1";
     date := "2021-03-04 UTC 05:06:07";
     media_type := "Image";
     is_get_request := true |}.

(** Three archives: one with an overlay and a main picture, one whose
    main entry fails its CRC check when read, one whose main entry is
    empty. *)
Definition zip_good : bytes := [Byte.x50; Byte.x4b; Byte.x03; Byte.x04; Byte.x01].
Definition zip_corrupt : bytes := [Byte.x50; Byte.x4b; Byte.x03; Byte.x04; Byte.x02].
Definition zip_empty_main : bytes := [Byte.x50; Byte.x4b; Byte.x03; Byte.x04; Byte.x03].

Definition archives : list Ref.Archive :=
  [ (zip_good, [("m-overlay.png", Ret [Byte.x89]);
                ("m-main.jpg", Ret [Byte.xff; Byte.xd8])]);
    (zip_corrupt, [("m-main.jpg", Raise (LibError "Bad CRC-32 for file 'm-main.jpg'"))]);
    (zip_empty_main, [("m-main.mp4", Ret [])]) ].




(** A row of the export table, with its directive. *)
Definition row (stamp kind onclick : string) : list Cell :=
  [ {| cell_text := stamp; cell_onclick := None |};
    {| cell_text := kind; cell_onclick := None |};
    {| cell_text := "Latitude, Longitude: 48.85, 2.35"; cell_onclick := None |};
    {| cell_text := "Download"; cell_onclick := Some onclick |} ].

Definition header : list Cell :=
  [ {| cell_text := "Date"; cell_onclick := None |};
    {| cell_text := "Media Type"; cell_onclick := None |};
    {| cell_text := "Location"; cell_onclick := None |} ].

(** An export of one memory with a [sid], and one of a memory without. *)
Definition export_with_sid : string -> list (list Cell) :=
  fun _ =>
    [ header;
      row "2021-03-04 05:06:07 UTC" "Image"
        "downloadMemories('https://app.snapchat.com/dmd/memories?uid=7&sid=0a1b2c3d4e5f6a7b8c9d&ts=1', this, true); return false;" ].

Definition export_without_sid : string -> list (list Cell) :=
  fun _ =>
    [ header;
      row "2021-03-04 05:06:07 UTC" "Video"
        "downloadMemories('https://app.snapchat.com/dmd/memories?uid=7', this, true); return false;" ].


Definition cfg (retries : Z) : Config :=
  {| images_dir := "downloads/images";
     videos_dir := "downloads/videos";
     max_retries := retries |}.

Definition empty_disk : Disk :=
  {| disk_files := ∅; disk_state_file := None; disk_failed_log := [] |}.

End Sample.

(** ** Further definitions for the properties of the executor *)

Section ExecutorWords.
Context {lib : PyLib}.
Variable py_hash : string -> Z.
Variable cfg : Config.

(** The State Store [d'] keeps every entry of [d] as it is. *)
Definition keeps_entries (d d' : gmap string string) : Prop :=
  forall k v, d !! k = Some v -> d' !! k = Some v.

(** The marks of [j] failed attempts, each followed by its backoff sleep
    [2^0, 2^1, ...]. *)
Definition failed_attempts (j : nat) : list Mark :=
  List.flat_map (fun d => [MAttempt; MBackoff d])
    (List.map (fun i => 2 ^ Z.of_nat i) (List.seq 0 j)).

(** How the last attempt of a call ends. *)
Definition last_attempt (b : bool) : list Mark :=
  if b then [MAttempt; MStat Successful]
  else [MAttempt; MLogFailure; MStat Failed].

(** The requests an attempt may issue: one for a GET memory, two for a
    POST memory. *)
Definition requests_per_attempt (m : Memory) : nat :=
  if is_get_request m then 1%nat else 2%nat.


End ExecutorWords.

(** A computation that leaves the component [f] of the world as it is,
    whether it returns or raises. *)
Definition preserves {X A : Type} (f : World -> X) (c : M A) : Prop :=
  forall w, f (snd (c w)) = f w.

(** ** Words about directives *)

Module DirectiveWords.

(** Every character of [s] is whitespace. *)
Fixpoint all_space (s : string) : bool :=
  match s with
  | EmptyString => true
  | String c s' => PyStr.is_space c && all_space s'
  end.

(** A locator as the export writes it between the quotes: no quote and no
    newline in it. *)
Fixpoint plain (u : string) : bool :=
  match u with
  | EmptyString => true
  | String c u' =>
      negb (Ascii.eqb c "'") && negb (Directive.is_newline c) && plain u'
  end.

Fixpoint no_newline (u : string) : bool :=
  match u with
  | EmptyString => true
  | String c u' => negb (Directive.is_newline c) && no_newline u'
  end.

Definition literal (flag : bool) : string := if flag then "true" else "false".

(** The call [downloadMemories('<u>',<ws1>this,<ws2><flag>)] followed by
    [post]. *)
Definition call (u ws1 ws2 flag post : string) : string :=
  "downloadMemories('" +:+ u +:+ "'," +:+ ws1 +:+ "this," +:+ ws2
    +:+ flag +:+ ")" +:+ post.

End DirectiveWords.

Module SampleMore.

(** A second descriptor of the asset of [Sample.with_sid]: the same [sid],
    another signature parameter. *)
Definition same_sid : Memory :=
  {| url := "https://app.snapchat.com/dmd/memories?uid=7&sid=0a1b2c3d4e5f6a7b8c9d&ts=2";
     date := "2021-03-04 05:06:07 UTC";
     media_type := "Image";
     is_get_request := false |}.

End SampleMore.

(** ** The metadata setter, [set_snapchat_metadata.py]

    The second program of the repository stamps the date found in a file
    name into the file's metadata.  Its calls to piexif, exiftool and the
    file system are the fields of [MetaLib]; each is given the content of
    the file it is pointed at, [None] when there is no such file, and a
    library write that raises leaves the file as it was. *)

Module Meta.

(** *** Dates in file names *)

(** [datetime(year, month, day, hour, minute, second)]: [None] stands for
    its [ValueError]. *)
Definition make_datetime (y mo d h mi s : Z) : option Ref.DateTime :=
  if (1 <=? y) && (y <=? 9999) && (1 <=? mo) && (mo <=? 12) &&
     (1 <=? d) && (d <=? Ref.days_in_month y mo) &&
     (0 <=? h) && (h <=? 23) && (0 <=? mi) && (mi <=? 59) &&
     (0 <=? s) && (s <=? 59)
  then Some {| Ref.year := y; Ref.month := mo; Ref.day := d;
               Ref.hour := h; Ref.minute := mi; Ref.second := s |}
  else None.

(** [\d{n}] and [int] of the group: [n] digits read off the front. *)
Fixpoint read_digits (n : nat) (acc : Z) (s : string) : option (Z * string) :=
  match n with
  | O => Some (acc, s)
  | S k =>
      match s with
      | String c s' =>
          match Ref.digit c with
          | Some d => read_digits k (10 * acc + d) s'
          | None => None
          end
      | EmptyString => None
      end
  end.

Definition read_char (c : ascii) (s : string) : option string :=
  match s with
  | String x s' => if Ascii.eqb x c then Some s' else None
  | EmptyString => None
  end.

(** [re.match(r'(\d{4})-(\d{2})-(\d{2})_(\d{2})-(\d{2})-(\d{2})', filename)]
    and the [int] of its six groups. *)
Definition match_stamp (filename : string) : option (Z * Z * Z * Z * Z * Z) :=
  match read_digits 4 0 filename with
  | Some (y, s1) =>
  match read_char "-" s1 with
  | Some s2 =>
  match read_digits 2 0 s2 with
  | Some (mo, s3) =>
  match read_char "-" s3 with
  | Some s4 =>
  match read_digits 2 0 s4 with
  | Some (d, s5) =>
  match read_char "_" s5 with
  | Some s6 =>
  match read_digits 2 0 s6 with
  | Some (h, s7) =>
  match read_char "-" s7 with
  | Some s8 =>
  match read_digits 2 0 s8 with
  | Some (mi, s9) =>
  match read_char "-" s9 with
  | Some s10 =>
  match read_digits 2 0 s10 with
  | Some (s, _) => Some (y, mo, d, h, mi, s)
  | None => None end
  | None => None end
  | None => None end
  | None => None end
  | None => None end
  | None => None end
  | None => None end
  | None => None end
  | None => None end
  | None => None end
  | None => None end.

(** [parse_date_from_filename] *)
Definition parse_date_from_filename (filename : string) : option Ref.DateTime :=
  match match_stamp filename with
  | Some (y, mo, d, h, mi, s) => make_datetime y mo d h mi s
  | None => None
  end.

(** *** Paths *)

(** [name.rfind('.')], counting from [pos]. *)
Fixpoint rfind_dot (s : string) (pos : nat) : option nat :=
  match s with
  | EmptyString => None
  | String c s' =>
      match rfind_dot s' (S pos) with
      | Some i => Some i
      | None => if Ascii.eqb c "." then Some pos else None
      end
  end.

(** [file_path.suffix]: from the last dot of the name, unless the dot is
    the first or the last character. *)
Definition suffix (name : string) : string :=
  match rfind_dot name O with
  | Some i =>
      if (0 <? i)%nat && (i <? String.length name - 1)%nat
      then String.substring i (String.length name - i) name
      else ""
  | None => ""
  end.

(** *** EXIF data *)

(** The dictionary of [piexif.load]: IFD name to tag to value. *)
Definition ExifDict : Type := gmap string (gmap Z string).

(** [piexif.ExifIFD.DateTimeOriginal], [piexif.ExifIFD.DateTimeDigitized],
    [piexif.ImageIFD.DateTime] *)
Definition DateTimeOriginal : Z := 36867.
Definition DateTimeDigitized : Z := 36868.
Definition DateTime : Z := 306.

(** What running exiftool on a file gives. *)
Inductive ToolOutcome : Type :=
| ToolDone (new_content : bytes)
| ToolFailed (stderr : string)        (* [CalledProcessError] *)
| ToolMissing                         (* [FileNotFoundError] *)
| ToolError (e : exn).

Class MetaLib : Type := {
  (** [piexif.load] on a file with the given content *)
  piexif_load : option bytes -> py_result ExifDict;
  (** [piexif.dump] *)
  piexif_dump : ExifDict -> py_result bytes;
  (** [piexif.insert(exif_bytes, path)]: the new content of the file *)
  piexif_insert : bytes -> option bytes -> py_result bytes;
  (** [dt.strftime('%Y:%m:%d %H:%M:%S')] *)
  exif_stamp : Ref.DateTime -> string;
  (** [subprocess.run(['exiftool', ...dates..., path], check=True)] for the
      stamp, on a file with the given content *)
  exiftool : string -> option bytes -> ToolOutcome;
  (** [Path.exists], [Path.glob], [sorted] *)
  dir_exists : string -> bool;
  glob : string -> string -> list Path;
  sorted_paths : list Path -> list Path
}.

(** ['success'], ['skipped'], ['failed'] *)
Inductive Result : Type := Success | SkippedFile | FailedFile.

Record Stats : Type := {
  total : Z;
  processed : Z;
  skipped : Z;
  failed : Z
}.

Inductive Event : Type :=
| EvWrite (msg : string)              (* [tqdm.write] *)
| EvUpdate.                           (* [pbar.update(1)] *)

Record World : Type := {
  files : gmap Path bytes;
  stats : Stats;
  trace : list Event
}.

Definition set_files (f : gmap Path bytes) (w : World) : World :=
  {| files := f; stats := stats w; trace := trace w |}.
Definition set_stats (s : Stats) (w : World) : World :=
  {| files := files w; stats := s; trace := trace w |}.
Definition set_trace (t : list Event) (w : World) : World :=
  {| files := files w; stats := stats w; trace := t |}.

Section Setter.
Context {lib : MetaLib}.
(** [self.directory], [self.force], and ['--verbose' in sys.argv] *)
Variable directory : string.
Variable force : bool.
Variable verbose : bool.

Definition MM (A : Type) : Type := World -> py_result A * World.

Definition mret {A} (a : A) : MM A := fun w => (Ret a, w).
Definition mraise {A} (e : exn) : MM A := fun w => (Raise e, w).
Definition mbind {A B} (c : MM A) (k : A -> MM B) : MM B :=
  fun w => match c w with
           | (Ret a, w') => k a w'
           | (Raise e, w') => (Raise e, w')
           end.
Definition mcatch {A} (body : MM A) (handler : exn -> MM A) : MM A :=
  fun w => match body w with
           | (Ret a, w') => (Ret a, w')
           | (Raise e, w') => handler e w'
           end.

(** [piexif.load(str(file_path))] *)
Definition load_at (p : Path) : MM ExifDict :=
  fun w => (piexif_load (files w !! p), w).

(** [has_exif_date] *)
Definition has_exif_date (p : Path) : MM bool :=
  if force then mret false
  else
    mcatch
      (mbind (load_at p) (fun exif_dict =>
         match default ∅ (exif_dict !! "Exif") !! DateTimeOriginal with
         | Some _ => mret true
         | None => mret false
         end))
      (fun _ => mret false).

Definition default_exif : ExifDict :=
  <["0th" := ∅]> (<["Exif" := ∅]> (<["GPS" := ∅]> (<["1st" := ∅]> ∅))).

(** [exif_dict[ifd][tag] = value]; the [KeyError] of a missing IFD *)
Definition set_tag (ifd : string) (tag : Z) (value : string) (d : ExifDict)
  : py_result ExifDict :=
  match d !! ifd with
  | Some tags => Ret (<[ifd := <[tag := value]> tags]> d)
  | None => Raise (LibError ifd)
  end.

(** The dictionary [set_image_metadata] hands to [piexif.dump]. *)
Definition stamped (stamp : string) (d : ExifDict) : py_result ExifDict :=
  rbind (set_tag "Exif" DateTimeOriginal stamp d) (fun d1 =>
  rbind (set_tag "Exif" DateTimeDigitized stamp d1) (fun d2 =>
  set_tag "0th" DateTime stamp d2)).

(** [piexif.insert(exif_bytes, str(file_path))] *)
Definition insert_at (exif_bytes : bytes) (p : Path) : MM unit :=
  fun w => match piexif_insert exif_bytes (files w !! p) with
           | Ret data' => (Ret tt, set_files (<[p := data']> (files w)) w)
           | Raise e => (Raise e, w)
           end.

(** [set_image_metadata] *)
Definition set_image_metadata (p : Path) (dt : Ref.DateTime) : MM Result :=
  mbind (has_exif_date p) (fun has =>
  if has then mret SkippedFile
  else
    let exif_datetime := exif_stamp dt in
    mcatch
      (mbind (mcatch (load_at p) (fun _ => mret default_exif)) (fun exif_dict =>
       mbind (fun w => (stamped exif_datetime exif_dict, w)) (fun exif_dict' =>
       mbind (fun w => (piexif_dump exif_dict', w)) (fun exif_bytes =>
       mbind (insert_at exif_bytes p) (fun _ =>
       mret Success)))))
      (fun e => mraise (LibError ("Failed to set image EXIF data: " +:+ str_of_exn e)))).

(** [set_video_metadata] *)
Definition set_video_metadata (p : Path) (dt : Ref.DateTime) : MM Result :=
  let exif_datetime := exif_stamp dt in
  fun w =>
    match exiftool exif_datetime (files w !! p) with
    | ToolDone data' => (Ret Success, set_files (<[p := data']> (files w)) w)
    | ToolFailed stderr => (Raise (LibError ("exiftool failed: " +:+ stderr)), w)
    | ToolMissing =>
        (Raise (LibError "exiftool not found - please install it and make sure it is in path (required for videos)"), w)
    | ToolError e => (Raise e, w)
    end.

(** [process_file] *)
Definition process_file (p : Path) : MM (Result * option string) :=
  match parse_date_from_filename (snd p) with
  | None =>
      mret (SkippedFile, Some ("Could not parse date from filename: " +:+ snd p))
  | Some dt =>
      let extension := PyStr.lower (suffix (snd p)) in
      mcatch
        (if String.eqb extension ".jpg" || String.eqb extension ".jpeg" then
           mbind (set_image_metadata p dt) (fun result => mret (result, None))
         else if String.eqb extension ".mp4" || String.eqb extension ".mov" then
           mbind (set_video_metadata p dt) (fun result => mret (result, None))
         else
           mret (SkippedFile, Some ("Unsupported file type: " +:+ extension)))
        (fun e => mret (FailedFile, Some (str_of_exn e)))
  end.

(** [find_media_files] *)
Definition find_media_files : list Path :=
  let images_dir := directory +:+ "/images" in
  let videos_dir := directory +:+ "/videos" in
  let images :=
    if dir_exists images_dir
    then glob images_dir "*.jpg" ++ glob images_dir "*.jpeg"
    else [] in
  let videos :=
    if dir_exists videos_dir
    then glob videos_dir "*.mp4" ++ glob videos_dir "*.mov"
    else [] in
  let media_files := images ++ videos in
  let media_files :=
    match media_files with
    | [] => glob directory "*.jpg" ++ glob directory "*.jpeg"
              ++ glob directory "*.mp4" ++ glob directory "*.mov"
    | _ :: _ => media_files
    end in
  sorted_paths media_files.

Definition bump (r : Result) (s : Stats) : Stats :=
  match r with
  | Success => {| total := total s; processed := processed s + 1;
                  skipped := skipped s; failed := failed s |}
  | SkippedFile => {| total := total s; processed := processed s;
                      skipped := skipped s + 1; failed := failed s |}
  | FailedFile => {| total := total s; processed := processed s;
                     skipped := skipped s; failed := failed s + 1 |}
  end.

Definition emit (e : Event) : MM unit :=
  fun w => (Ret tt, set_trace (trace w ++ [e]) w).

(** The body of [for file_path in media_files] of [run]. *)
Definition handle_file (p : Path) : MM unit :=
  mbind (process_file p) (fun '(result, error) =>
  mbind (fun w => (Ret tt, set_stats (bump result (stats w)) w)) (fun _ =>
  mbind (match result with
         | Success => mret tt
         | SkippedFile =>
             match error with
             | Some msg =>
                 if PyStr.truthy msg && verbose
                 then emit (EvWrite ("Skipped: " +:+ msg))
                 else mret tt
             | None => mret tt
             end
         | FailedFile =>
             emit (EvWrite ("Failed: " +:+ snd p +:+ " - " +:+ default "None" error))
         end) (fun _ =>
  emit EvUpdate))).

Fixpoint handle_files (media_files : list Path) : MM unit :=
  match media_files with
  | [] => mret tt
  | p :: rest => mbind (handle_file p) (fun _ => handle_files rest)
  end.

(** [run] *)
Definition run : MM unit :=
  let media_files := find_media_files in
  mbind (fun w => (Ret tt,
           set_stats {| total := Z.of_nat (List.length media_files);
                        processed := processed (stats w);
                        skipped := skipped (stats w);
                        failed := failed (stats w) |} w))
    (fun _ =>
       match media_files with
       | [] => mret tt
       | _ :: _ => handle_files media_files
       end).

(** [__init__]: the counters at zero. *)
Definition init_world (disk : gmap Path bytes) : World :=
  {| files := disk;
     stats := {| total := 0; processed := 0; skipped := 0; failed := 0 |};
     trace := [] |}.

End Setter.

(** Words for the statements: the value of a tag, the dictionary
    [set_image_metadata] starts from, and the three tags it writes. *)
Definition tag_of (d : ExifDict) (ifd : string) (tag : Z) : option string :=
  d !! ifd ≫= (fun tags => tags !! tag).

Definition exif_of {lib : MetaLib} (content : option bytes) : ExifDict :=
  match piexif_load content with
  | Ret d => d
  | Raise _ => default_exif
  end.

Definition date_tag (ifd : string) (tag : Z) : bool :=
  (String.eqb ifd "Exif" && ((tag =? DateTimeOriginal) || (tag =? DateTimeDigitized)))
  || (String.eqb ifd "0th" && (tag =? DateTime)).

Definition is_image (name : string) : bool :=
  let extension := PyStr.lower (suffix name) in
  String.eqb extension ".jpg" || String.eqb extension ".jpeg".

Definition counted (s : Stats) : Z := processed s + skipped s + failed s.

(** The stamps of the reference datetime library. *)
Definition ref_exif_stamp (dt : Ref.DateTime) : string :=
  Ref.pad4 (Ref.year dt) +:+ ":" +:+ Ref.pad2 (Ref.month dt) +:+ ":"
    +:+ Ref.pad2 (Ref.day dt) +:+ " " +:+ Ref.pad2 (Ref.hour dt) +:+ ":"
    +:+ Ref.pad2 (Ref.minute dt) +:+ ":" +:+ Ref.pad2 (Ref.second dt).

(** Checks of the two-digit and four-digit fields, for the round trip. *)
Definition pad2_reads (n : Z) : bool :=
  match Ref.pad2 n with
  | String a (String b EmptyString) =>
      match Ref.digit a, Ref.digit b with
      | Some x, Some y => 10 * x + y =? n
      | _, _ => false
      end
  | _ => false
  end.

Definition pad4_reads (n : Z) : bool :=
  match Ref.pad4 n with
  | String a (String b (String c (String d EmptyString))) =>
      match Ref.digit a, Ref.digit b, Ref.digit c, Ref.digit d with
      | Some x, Some y, Some z, Some t => 10 * (10 * (10 * x + y) + z) + t =? n
      | _, _, _, _ => false
      end
  | _ => false
  end.

(** A date and time [datetime] accepts. *)
Definition valid (dt : Ref.DateTime) : Prop :=
  1 <= Ref.year dt <= 9999 /\ 1 <= Ref.month dt <= 12 /\
  1 <= Ref.day dt <= Ref.days_in_month (Ref.year dt) (Ref.month dt) /\
  0 <= Ref.hour dt <= 23 /\ 0 <= Ref.minute dt <= 59 /\
  0 <= Ref.second dt <= 59.

(** A [MetaLib] for the examples: an empty or missing file is no JPEG, a
    file of one byte has no date, a longer one has a [DateTimeOriginal];
    exiftool is not installed. *)
Definition sample_lib : MetaLib :=
  {| piexif_load := fun data =>
       match data with
       | None | Some [] => Raise (LibError "Given file is neither JPEG nor TIFF")
       | Some (_ :: rest) =>
           Ret (<["0th" := ∅]>
                  (<["Exif" := match rest with
                               | [] => ∅
                               | _ :: _ => {[ DateTimeOriginal := "2020:01:01 00:00:00" ]}
                               end]> ∅))
       end;
     piexif_dump := fun _ => Ret [Byte.x45];
     piexif_insert := fun exif data =>
       match data with
       | Some content => Ret (content ++ exif)
       | None => Raise (LibError "No such file or directory")
       end;
     exif_stamp := ref_exif_stamp;
     exiftool := fun _ _ => ToolMissing;
     dir_exists := fun _ => false;
     glob := fun dir pattern =>
       if String.eqb pattern "*.jpg"
       then [(dir, "2021-03-04_05-06-07_0a1b2c3d4e5f6a7b.jpg");
             (dir, "unknown_date_0a1b2c3d4e5f6a7b.jpg")]
       else if String.eqb pattern "*.mp4"
       then [(dir, "2021-03-04_05-06-07_5880283874328509.mp4")]
       else [];
     sorted_paths := fun l => l |}.

Definition sample_dated : Path := ("out/images", "2021-03-04_05-06-07_0a1b2c3d4e5f6a7b.jpg").
Definition sample_undated : Path := ("out/images", "2021-03-04_05-06-07_ffffffffffffffff.jpg").

Definition sample_disk : gmap Path bytes :=
  <[sample_dated := [Byte.xff; Byte.xd8]]> (<[sample_undated := [Byte.xff]]> ∅).

End Meta.

(** * Properties *)

(** ** Strings *)

Section StringFacts.

Lemma append_cancel_l (a x y : string) : a +:+ x = a +:+ y -> x = y.
Proof.
  induction a as [|c a IH]; cbn [String.append]; intros H.
  - exact H.
  - injection H as H. auto.
Qed.

Lemma append_length (a b : string) :
  String.length (a +:+ b) = (String.length a + String.length b)%nat.
Proof.
  induction a as [|c a IH]; cbn [String.append String.length];
    [reflexivity | now rewrite IH].
Qed.

Lemma append_cancel_r (b x y : string) : x +:+ b = y +:+ b -> x = y.
Proof.
  revert y. induction x as [|c x IH]; intros [|d y] H.
  - reflexivity.
  - apply (f_equal String.length) in H.
    rewrite !append_length in H. cbn [String.length] in H. lia.
  - apply (f_equal String.length) in H.
    rewrite !append_length in H. cbn [String.length] in H. lia.
  - cbn [String.append] in H. injection H as -> H. f_equal. auto.
Qed.

Lemma append_assoc (a b c : string) : (a +:+ b) +:+ c = a +:+ (b +:+ c).
Proof.
  induction a as [|x a IH]; cbn [String.append]; [reflexivity | now rewrite IH].
Qed.

Lemma append_empty_r (a : string) : a +:+ "" = a.
Proof.
  induction a as [|x a IH]; cbn [String.append]; [reflexivity | now rewrite IH].
Qed.

Lemma strip_prefix_app (p s r : string) :
  PyStr.strip_prefix p s = Some r -> s = p +:+ r.
Proof.
  revert s. induction p as [|a p IH]; intros s H;
    cbn [PyStr.strip_prefix String.append] in *.
  - now injection H as ->.
  - destruct s as [|b s]; [discriminate|].
    destruct (Ascii.eqb_spec a b) as [->|]; [|discriminate].
    f_equal. auto.
Qed.

Lemma strip_prefix_of_app (p r : string) :
  PyStr.strip_prefix p (p +:+ r) = Some r.
Proof.
  induction p as [|a p IH]; cbn [PyStr.strip_prefix String.append];
    [reflexivity|].
  now rewrite Ascii.eqb_refl.
Qed.

(** A prefix test that succeeds on [s +:+ x] succeeds on [s] alone once
    [s] is as long as the prefix. *)
Lemma startswith_app_long (p s x : string) :
  (String.length p <= String.length s)%nat ->
  PyStr.startswith p (s +:+ x) = PyStr.startswith p s.
Proof.
  unfold PyStr.startswith.
  revert s. induction p as [|a p IH]; intros s Hlen.
  - reflexivity.
  - destruct s as [|b s]; cbn [String.length] in Hlen; [lia|].
    cbn [PyStr.strip_prefix String.append].
    destruct (Ascii.eqb a b); [|reflexivity].
    apply IH. lia.
Qed.

Lemma contains_cons (old : string) (c : ascii) (s : string) :
  PyStrSpec.contains old (String c s) = false ->
  PyStr.startswith old (String c s) = false /\ PyStrSpec.contains old s = false.
Proof.
  cbn [PyStrSpec.contains]. intros H. apply orb_false_elim in H. exact H.
Qed.

(** [replace] leaves a string without occurrence as it is. *)
Lemma replace_absent (old new s : string) :
  PyStrSpec.contains old s = false -> PyStr.replace old new s = s.
Proof.
  unfold PyStr.replace.
  induction s as [|c s IH]; intros H; [reflexivity|].
  apply contains_cons in H as [Hs Hc].
  cbn [PyStr.replace_go]. rewrite Hs. f_equal. auto.
Qed.

(** No occurrence of [" UTC"] starts inside [t] and runs into a
    following [" UTC"]. *)
Lemma utc_no_straddle (c : ascii) (t : string) :
  PyStr.startswith " UTC" (String c t) = false ->
  PyStr.startswith " UTC" (String c t +:+ " UTC") = false.
Proof.
  intros H.
  destruct (le_lt_dec 4 (String.length (String c t))) as [Hlen|Hlen].
  - rewrite startswith_app_long; [exact H | exact Hlen].
  - clear H. unfold PyStr.startswith.
    destruct t as [|c2 [|c3 [|c4 t]]]; cbn [String.length] in Hlen; try lia;
      cbn [PyStr.strip_prefix String.append];
      repeat match goal with
             | |- context [Ascii.eqb ?a ?b] =>
                 lazymatch b with
                 | Ascii _ _ _ _ _ _ _ _ => fail
                 | _ => destruct (Ascii.eqb_spec a b); subst;
                        cbn [PyStr.strip_prefix String.append]
                 end
             end; reflexivity.
Qed.

(** [replace] strips a trailing [" UTC"] from a timestamp that has no
    other occurrence. *)
Lemma replace_utc_suffix (t : string) :
  PyStrSpec.contains " UTC" t = false ->
  PyStr.replace " UTC" "" (t +:+ " UTC") = t.
Proof.
  unfold PyStr.replace.
  induction t as [|c t IH]; intros H; [reflexivity|].
  apply contains_cons in H as [Hs Hc].
  change (String c t +:+ " UTC") with (String c (t +:+ " UTC")).
  cbn [PyStr.replace_go].
  change (String c (t +:+ " UTC")) with (String c t +:+ " UTC").
  rewrite (utc_no_straddle _ _ Hs). f_equal. auto.
Qed.

Lemma take_app_length (a b : string) :
  PyStr.take (String.length a) (a +:+ b) = a.
Proof.
  induction a as [|c a IH]; cbn [String.length String.append PyStr.take];
    [now destruct b | now rewrite IH].
Qed.

(** A string that ends with [suffix] is its head followed by [suffix]. *)
Lemma endswith_split (suffix s : string) :
  PyStr.endswith suffix s = true ->
  s = PyStr.take (String.length s - String.length suffix) s +:+ suffix.
Proof.
  induction s as [|c s IH]; intros H.
  - cbn [PyStr.endswith] in H.
    destruct (String.eqb_spec suffix "") as [Heq|Hne]; [|discriminate].
    subst suffix. reflexivity.
  - cbn [PyStr.endswith] in H.
    destruct (String.eqb_spec suffix (String c s)) as [Heq|Hne].
    + subst suffix. rewrite Nat.sub_diag. reflexivity.
    + specialize (IH H).
      assert (Hlen : (String.length suffix <= String.length s)%nat).
      { rewrite IH, append_length. lia. }
      cbn [String.length].
      replace (S (String.length s) - String.length suffix)%nat
        with (S (String.length s - String.length suffix)) by lia.
      cbn [PyStr.take String.append]. f_equal. exact IH.
Qed.

End StringFacts.

(** ** Identity and naming *)

(** C7: [extract_sid_from_url] returns on every input string, whatever
    urllib does with it: the first value of the query parameter [sid] when
    the URL parses and has one, and [None] when parsing raises or the
    parameter is missing.  No input makes it raise. *)
Theorem extract_sid_from_url_total {lib : PyLib} (u : string) :
  exists r : option string,
    extract_sid_from_url u = Ret r /\
    r = match urlparse_query u with
        | Ret query =>
            match parse_qs query with
            | Ret params =>
                match params !! "sid" with
                | Some (v :: _) => Some v
                | _ => None
                end
            | Raise _ => None
            end
        | Raise _ => None
        end.
Proof.
  unfold extract_sid_from_url, try_except, rbind.
  destruct (urlparse_query u) as [query|e]; [|eauto].
  destruct (parse_qs query) as [params|e]; [|eauto].
  destruct (params !! "sid") as [[|v vs]|]; eauto.
Qed.

(** With a [sid] the name does not depend on the interpreter's [hash]. *)
Lemma generate_filename_sid_stable {lib : PyLib} (h1 h2 : string -> Z) (m : Memory) :
  sid_truthy (sid_of (url m)) = true ->
  generate_filename h1 m = generate_filename h2 m.
Proof.
  intros H. unfold generate_filename, unique_part. now rewrite H.
Qed.

(** Without one, two interpreters whose hashes of the locator print
    differently in their first 16 characters give different names. *)
Lemma generate_filename_hash_fallback {lib : PyLib} (h1 h2 : string -> Z) (m : Memory) :
  sid_truthy (sid_of (url m)) = false ->
  PyStr.take 16 (PyStr.of_int (h1 (url m))) <> PyStr.take 16 (PyStr.of_int (h2 (url m))) ->
  generate_filename h1 m <> generate_filename h2 m.
Proof.
  intros Hsid Hne Heq. apply Hne.
  unfold generate_filename, unique_part in Heq. rewrite Hsid in Heq.
  apply append_cancel_l, append_cancel_l in Heq.
  now apply append_cancel_r in Heq.
Qed.

(** C1: the name of a descriptor without [sid] is built from the
    interpreter's [hash] of the locator, which differs from one process to
    the next: the same descriptor gets two different filenames under two
    hash secrets. *)
Theorem generate_filename_differs_between_processes :
  @generate_filename Sample.lib_up Sample.hash_a Sample.without_sid
    = "2021-03-04_05-06-07_5880283874328509.mp4" /\
  @generate_filename Sample.lib_up Sample.hash_b Sample.without_sid
    = "2021-03-04_05-06-07_-149002185272567.mp4" /\
  @generate_filename Sample.lib_up Sample.hash_a Sample.without_sid
    <> @generate_filename Sample.lib_up Sample.hash_b Sample.without_sid.
Proof.
  split; [|split]; [vm_compute; reflexivity ..|].
  apply generate_filename_hash_fallback; vm_compute; [reflexivity|discriminate].
Qed.

(** ** The date component *)

Lemma clean_date_agrees_with_suffix_strip (d : string) :
  PyStrSpec.contains " UTC" (strip_utc_suffix d) = false ->
  clean_date d = strip_utc_suffix d.
Proof.
  unfold clean_date, strip_utc_suffix.
  destruct (PyStr.endswith " UTC" d) eqn:Hend; intros Hc.
  - apply endswith_split in Hend. cbn [String.length] in Hend |- *.
    rewrite Hend at 1. now apply replace_utc_suffix.
  - now apply replace_absent.
Qed.

(** C8 (amended): [generate_filename] removes [" UTC"] with [str.replace]
    and parses what is left: where the timestamp, without its optional
    [" UTC"] suffix, holds no further [" UTC"], that is the name the
    specification describes; and whenever the parse of the cleaned
    timestamp fails, the date component is [unknown_date] and a filename is
    still returned. *)
Theorem generate_filename_date {lib : PyLib} (py_hash : string -> Z) (m : Memory) :
  (PyStrSpec.contains " UTC" (strip_utc_suffix (date m)) = false ->
   generate_filename py_hash m = spec_generate_filename py_hash m) /\
  (forall e, strptime (clean_date (date m)) = Raise e ->
   generate_filename py_hash m
   = "unknown_date" +:+ "_" +:+ unique_part py_hash m +:+ "." +:+ extension m).
Proof.
  split.
  - intros H. unfold generate_filename, spec_generate_filename.
    f_equal. unfold date_part, spec_date_part, try_except.
    rewrite (clean_date_agrees_with_suffix_strip _ H).
    destruct (rbind _ _); reflexivity.
  - intros e H. unfold generate_filename, date_part. now rewrite H.
Qed.

Lemma generate_filename_date_witness :
  (PyStrSpec.contains " UTC" (strip_utc_suffix (date Sample.with_sid)) = false /\
   @generate_filename Sample.lib_up Sample.hash_a Sample.with_sid
   = @spec_generate_filename Sample.lib_up Sample.hash_a Sample.with_sid) /\
  (@strptime Sample.lib_up (clean_date "yesterday") = Raise (LibError "time data does not match format") /\
   @generate_filename Sample.lib_up Sample.hash_a
     {| url := "u"; date := "yesterday"; media_type := "x"; is_get_request := true |}
   = "unknown_date_5880283874328509.bin").
Proof.
  split; split.
  - vm_compute; reflexivity.
  - apply (@generate_filename_date Sample.lib_up Sample.hash_a Sample.with_sid).
    vm_compute; reflexivity.
  - vm_compute; reflexivity.
  - apply (proj2 (@generate_filename_date Sample.lib_up Sample.hash_a
              {| url := "u"; date := "yesterday"; media_type := "x";
                 is_get_request := true |}) (LibError "time data does not match format")).
    vm_compute; reflexivity.
Defined.

(** C8, as stated, fails: a timestamp with [" UTC"] in the middle has no
    suffix to strip and does not parse, so the specification's name carries
    [unknown_date]; the program removes the inner [" UTC"] and names the file
    by the date. *)
Lemma generate_filename_strips_more_than_suffix :
  @spec_generate_filename Sample.lib_up Sample.hash_a Sample.utc_inside
    = "unknown_date_0a1b2c3d4e5f6a7b.jpg" /\
  @generate_filename Sample.lib_up Sample.hash_a Sample.utc_inside
    = "2021-03-04_05-06-07_0a1b2c3d4e5f6a7b.jpg" /\
  @generate_filename Sample.lib_up Sample.hash_a Sample.utc_inside
    <> @spec_generate_filename Sample.lib_up Sample.hash_a Sample.utc_inside.
Proof. repeat split; vm_compute; [reflexivity .. | discriminate]. Qed.

(** ** Directives and transfer protocols *)




Lemma transfer_direct_trace {lib : PyLib} (m : Memory) (p : Path) (w : World) :
  is_get_request m = true ->
  trace (snd (transfer m p w)) = trace w ++ [EvRequest (GetRouted (url m))].
Proof.
  intros Hget. unfold transfer. rewrite Hget.
  unfold request, raise_for_status, write_file, fs_op, bind, get, modify,
    emit, lift, ret, raise. simpl.
  destruct (http _ _) as [response|e]; simpl; [|reflexivity].
  destruct (_ && _); reflexivity.
Qed.

Lemma transfer_indirect_trace {lib : PyLib} (m : Memory) (p : Path) (w : World) :
  is_get_request m = false ->
  trace (snd (transfer m p w))
  = trace w ++ indirect_requests (url m) (requests_made w).
Proof.
  intros Hget. unfold transfer, indirect_requests, status_ok. rewrite Hget.
  destruct (PyStr.split_once "?" (url m)) as [base_url rest].
  replace (match rest with Some p0 => p0 | None => "" end) with (default "" rest)
    by now destruct rest.
  unfold request, raise_for_status, write_file, fs_op, bind, get, modify,
    emit, lift, ret, raise. simpl.
  destruct (http _ _) as [response|e]; simpl; [|reflexivity].
  destruct (_ && _); simpl; [reflexivity|].
  rewrite <- app_assoc. simpl.
  destruct (http _ _) as [response2|e]; simpl; [|reflexivity].
  destruct (_ && _); reflexivity.
Qed.



(** ** Archive normalisation *)

Lemma temp_path_fresh (p : Path) : temp_path_of p <> p.
Proof.
  destruct p as [d n]. unfold temp_path_of. simpl. intros [= H].
  apply (f_equal String.length) in H. simpl in H. lia.
Qed.






(** ** One call of [download_file] *)

Section Sequencing.

Lemma bind_ret_eq {A B} (c : M A) (k : A -> M B) (w w1 : World) (a : A) :
  c w = (Ret a, w1) -> bind c k w = k a w1.
Proof. unfold bind. now intros ->. Qed.

Lemma bind_raise_eq {A B} (c : M A) (k : A -> M B) (w w1 : World) (e : exn) :
  c w = (Raise e, w1) -> bind c k w = (Raise e, w1).
Proof. unfold bind. now intros ->. Qed.

Lemma try_catch_ret_eq {A} (c : M A) (h : exn -> M A) (w w1 : World) (a : A) :
  c w = (Ret a, w1) -> try_catch c h w = (Ret a, w1).
Proof. unfold try_catch. now intros ->. Qed.

Lemma try_catch_raise_eq {A} (c : M A) (h : exn -> M A) (w w1 : World) (e : exn) :
  c w = (Raise e, w1) -> try_catch c h w = h e w1.
Proof. unfold try_catch. now intros ->. Qed.

Lemma skeleton_app (a b : list Event) : skeleton (a ++ b) = skeleton a ++ skeleton b.
Proof. apply omap_app. Qed.

Lemma stat_updates_app (a b : list Event) :
  stat_updates (a ++ b) = stat_updates a ++ stat_updates b.
Proof. apply omap_app. Qed.

End Sequencing.

Ltac conjs :=
  repeat match goal with |- _ /\ _ => split end;
  try reflexivity; try assumption.

Ltac m_unfold :=
  unfold request, raise_for_status, write_file, unlink, rename, fs_op,
    save_state, log_failure, record_download, inc_stat, with_lock,
    try_catch, bind, get, modify, emit, lift, ret, raise.

Section Attempt.
Context {lib : PyLib}.

(** A transfer touches the files and the network only; in the trace it
    is one attempt. *)
Lemma transfer_effect (m : Memory) (p : Path) (w : World) :
  exists r w' evs,
    transfer m p w = (r, w') /\ same_books w w' /\
    trace w' = trace w ++ evs /\
    skeleton evs = [MAttempt] /\ stat_updates evs = [].
Proof.
  destruct (is_get_request m) eqn:Hget.
  - pose proof (transfer_direct_trace m p w Hget) as Ht.
    destruct (transfer m p w) as [r w'] eqn:Heq. simpl in Ht.
    exists r, w', [EvRequest (GetRouted (url m))].
    split; [reflexivity|]. split; [|now rewrite Ht].
    unfold transfer in Heq. rewrite Hget in Heq. revert Heq. m_unfold. simpl.
    destruct (http _ _) as [response|e]; simpl.
    + destruct (_ && _); intros [= <- <-]; now repeat split.
    + intros [= <- <-]; now repeat split.
  - pose proof (transfer_indirect_trace m p w Hget) as Ht.
    destruct (transfer m p w) as [r w'] eqn:Heq. simpl in Ht.
    exists r, w', (indirect_requests (url m) (requests_made w)).
    split; [reflexivity|]. split; [|split; [exact Ht|]].
    + unfold transfer in Heq. rewrite Hget in Heq. revert Heq.
      destruct (PyStr.split_once "?" (url m)) as [base_url rest].
      m_unfold. simpl.
      destruct (http _ _) as [response|e]; simpl.
      * destruct (_ && _); simpl; [intros [= <- <-]; now repeat split|].
        destruct (http _ _) as [response2|e]; simpl.
        -- destruct (_ && _); intros [= <- <-]; now repeat split.
        -- intros [= <- <-]; now repeat split.
      * intros [= <- <-]; now repeat split.
    + unfold indirect_requests.
      destruct (PyStr.split_once "?" (url m)) as [base_url rest].
      destruct (http _ _) as [response|e]; [|now split].
      destruct (status_ok response); now split.
Qed.

(** Normalisation returns, whatever the archive; it touches the files
    only and at most surfaces a warning. *)
Lemma extract_zip_effect (p : Path) (w : World) :
  exists w' evs,
    _extract_zip_if_needed p w = (Ret tt, w') /\ same_books w w' /\
    trace w' = trace w ++ evs /\
    skeleton evs = [] /\ stat_updates evs = [].
Proof.
  unfold _extract_zip_if_needed. m_unfold.
  destruct (files w !! p) as [data|] eqn:Hfile;
    [|exists w, []; rewrite app_nil_r; now repeat split].
  destruct (is_zipfile data);
    [|exists w, []; rewrite app_nil_r; now repeat split].
  destruct (zip_namelist data) as [names|e];
    [|eexists _, [EvWarn e]; now repeat split].
  destruct (find_main_file names) as [name|];
    [|exists w, []; rewrite app_nil_r; now repeat split].
  destruct (PyStr.truthy name);
    [|exists w, []; rewrite app_nil_r; now repeat split].
  simpl.
  destruct (zip_read data name) as [payload|e]; simpl;
    [|eexists _, [EvWarn e]; now repeat split].
  repeat match goal with
         | |- context [match ?x !! ?k with _ => _ end] =>
             destruct (x !! k); simpl
         end;
    first [ eexists _, []; rewrite app_nil_r; now repeat split
          | eexists _, [EvWarn _]; now repeat split ].
Qed.

Lemma record_success_effect (sid : option string) (p : Path) (w : World) :
  exists w' evs,
    record_success sid p w = (Ret tt, w') /\ recorded sid p w w' /\
    stats w' = stats w /\ failed_log w' = failed_log w /\
    trace w' = trace w ++ evs /\
    skeleton evs = [] /\ stat_updates evs = [].
Proof.
  unfold record_success, recorded.
  destruct (sid_truthy sid).
  - m_unfold. simpl. eexists _, [EvSaveState]. now repeat split.
  - exists w, []. rewrite app_nil_r. now repeat split.
Qed.

(** One attempt: it either raises, having changed nothing but files and
    network, or returns [True] with the download recorded and counted under
    the statistics lock. *)
Lemma attempt_body_effect (m : Memory) (sid : option string) (p : Path) (w : World) :
  exists r w' evs,
    attempt_body m sid p w = (r, w') /\
    trace w' = trace w ++ evs /\
    match r with
    | Raise _ =>
        same_books w w' /\
        skeleton evs = [MAttempt] /\ stat_updates evs = []
    | Ret b =>
        b = true /\
        stats w' = bump Successful (stats w) /\
        recorded sid p w w' /\
        failed_log w' = failed_log w /\
        skeleton evs = [MAttempt; MStat Successful] /\
        stat_updates evs = [(Successful, true)]
    end.
Proof.
  unfold attempt_body.
  destruct (transfer_effect m p w) as (r & w1 & evs1 & Ht & Hb1 & Htr1 & Hsk1 & Hst1).
  destruct r as [[]|e].
  2:{ rewrite (bind_raise_eq _ _ _ _ _ Ht). exists (Raise e), w1, evs1. conjs. }
  rewrite (bind_ret_eq _ _ _ _ _ Ht). unfold bind at 1, get.
  destruct (exists_nonempty w1 p).
  2:{ exists (Raise EmptyDownload), w1, evs1. conjs. }
  destruct (extract_zip_effect p w1) as (w2 & evs2 & He & Hb2 & Htr2 & Hsk2 & Hst2).
  rewrite (bind_ret_eq _ _ _ _ _ He).
  destruct (record_success_effect sid p w2)
    as (w3 & evs3 & Hr & Hrec & Hs3 & Hf3 & Htr3 & Hsk3 & Hst3).
  rewrite (bind_ret_eq _ _ _ _ _ Hr).
  m_unfold. simpl.
  destruct Hb1 as (Hd1 & Hsf1 & Hs1 & Hf1), Hb2 as (Hd2 & Hsf2 & Hs2 & Hf2).
  eexists (Ret true), _, (evs1 ++ evs2 ++ evs3 ++ [EvStat Successful true]).
  split; [reflexivity|]. simpl.
  split; [rewrite Htr3, Htr2, Htr1, <- !app_assoc; reflexivity|].
  split; [reflexivity|].
  split; [now rewrite Hs3, Hs2, Hs1|].
  split.
  { unfold recorded in *. rewrite Hd2, Hd1, Hsf2, Hsf1 in Hrec.
    destruct (sid_truthy sid); exact Hrec. }
  split; [now rewrite Hf3, Hf2, Hf1|].
  rewrite !skeleton_app, !stat_updates_app, Hsk1, Hsk2, Hsk3, Hst1, Hst2, Hst3.
  now split.
Qed.

End Attempt.

(** ** The retry loop *)

Section Retry.
Context {lib : PyLib}.
Variable py_hash : string -> Z.
Variable cfg : Config.

Lemma recorded_from (sid : option string) (p : Path) (w0 w w' : World) :
  downloaded_files w = downloaded_files w0 ->
  state_file w = state_file w0 ->
  recorded sid p w w' -> recorded sid p w0 w'.
Proof.
  unfold recorded. intros Hd Hs. rewrite Hd, Hs. auto.
Qed.

(** Entered with at least one iteration to go, the loop returns, with a
    download recorded and counted, or with a failure logged and counted;
    both counter updates hold the statistics lock. *)
Lemma retry_loop_effect (m : Memory) (sid : option string) (p : Path) :
  forall (remaining : nat) (attempt : Z) (w : World),
    Z.of_nat remaining + attempt = max_retries cfg ->
    (1 <= remaining)%nat ->
    exists b w' evs,
      retry_loop cfg m sid p remaining attempt w = (Ret b, w') /\
      trace w' = trace w ++ evs /\
      if b then
        stats w' = bump Successful (stats w) /\
        recorded sid p w w' /\
        failed_log w' = failed_log w /\
        stat_updates evs = [(Successful, true)]
      else
        stats w' = bump Failed (stats w) /\
        downloaded_files w' = downloaded_files w /\
        state_file w' = state_file w /\
        (exists e, failed_log w' = failed_log w ++ [(url m, failure_message cfg e)]) /\
        stat_updates evs = [(Failed, true)].
Proof.
  induction remaining as [|k IH]; intros attempt w Hsum Hpos; [lia|].
  cbn [retry_loop].
  destruct (attempt_body_effect m sid p w) as (r & w1 & evs1 & Ha & Htr1 & Hr).
  destruct r as [b|e].
  - destruct Hr as (-> & Hs & Hrec & Hf & _ & Hst).
    rewrite (try_catch_ret_eq _ _ _ _ _ Ha).
    exists true, w1, evs1. conjs.
  - destruct Hr as ((Hd & Hsf & Hs & Hf) & _ & Hst).
    rewrite (try_catch_raise_eq _ _ _ _ _ Ha).
    destruct (attempt <? max_retries cfg - 1) eqn:Hlast.
    + apply Z.ltb_lt in Hlast.
      unfold bind at 1, emit, modify.
      destruct (IH (attempt + 1) (set_trace (trace w1 ++ [EvBackoff (2 ^ attempt)]) w1))
        as (b & w2 & evs2 & Hl & Htr2 & Hb); [lia | lia |].
      rewrite Hl. simpl in Htr2.
      exists b, w2, (evs1 ++ [EvBackoff (2 ^ attempt)] ++ evs2).
      split; [reflexivity|].
      split; [rewrite Htr2, Htr1, <- !app_assoc; reflexivity|].
      rewrite !stat_updates_app, Hst. simpl in Hb |- *.
      destruct b.
      * destruct Hb as (Hs2 & Hrec & Hf2 & Hst2). conjs.
        -- now rewrite Hs2, Hs.
        -- eapply recorded_from; [| |exact Hrec]; simpl; congruence.
        -- now rewrite Hf2, Hf.
      * destruct Hb as (Hs2 & Hd2 & Hsf2 & (e2 & Hf2) & Hst2). conjs.
        -- now rewrite Hs2, Hs.
        -- now rewrite Hd2, Hd.
        -- now rewrite Hsf2, Hsf.
        -- exists e2. now rewrite Hf2, Hf.
    + m_unfold. simpl.
      eexists false, _, (evs1 ++ [EvLogFailure (url m) (failure_message cfg e);
                                   EvStat Failed true]).
      split; [reflexivity|]. simpl.
      split; [rewrite Htr1, <- !app_assoc; reflexivity|].
      rewrite !stat_updates_app, Hst. conjs.
      * now rewrite Hs.
      * exists e. now rewrite Hf.
Qed.

(** The marks of a loop whose every attempt fails. *)
Lemma retry_loop_always_fails (m : Memory) :
  always_fails py_hash cfg m ->
  forall (remaining : nat) (attempt : Z) (w : World),
    Z.of_nat remaining + attempt = max_retries cfg ->
    (1 <= remaining)%nat ->
    exists w' evs e,
      retry_loop cfg m (sid_of (url m)) (output_path_of py_hash cfg m)
        remaining attempt w = (Ret false, w') /\
      trace w' = trace w ++ evs /\
      skeleton evs
      = List.flat_map (fun d => [MAttempt; MBackoff d])
          (List.map (fun i => 2 ^ (attempt + Z.of_nat i))
             (List.seq 0 (Nat.pred remaining)))
        ++ [MAttempt; MLogFailure; MStat Failed] /\
      failed_log w' = failed_log w ++ [(url m, failure_message cfg e)] /\
      stats w' = bump Failed (stats w).
Proof.
  intros Hfail.
  induction remaining as [|k IH]; intros attempt w Hsum Hpos; [lia|].
  cbn [retry_loop].
  destruct (Hfail w) as (e & w1 & Ha).
  destruct (attempt_body_effect m (sid_of (url m)) (output_path_of py_hash cfg m) w)
    as (r & w1' & evs1 & Ha' & Htr1 & Hr).
  rewrite Ha in Ha'. injection Ha' as <- <-.
  destruct Hr as ((Hd & Hsf & Hs & Hf) & Hsk & Hst).
  rewrite (try_catch_raise_eq _ _ _ _ _ Ha).
  destruct (attempt <? max_retries cfg - 1) eqn:Hlast.
  - apply Z.ltb_lt in Hlast.
    unfold bind at 1, emit, modify.
    destruct (IH (attempt + 1) (set_trace (trace w1 ++ [EvBackoff (2 ^ attempt)]) w1))
      as (w2 & evs2 & e2 & Hl & Htr2 & Hsk2 & Hf2 & Hs2); [lia | lia |].
    rewrite Hl. simpl in Htr2, Hf2, Hs2.
    exists w2, (evs1 ++ [EvBackoff (2 ^ attempt)] ++ evs2), e2.
    split; [reflexivity|].
    split; [rewrite Htr2, Htr1, <- !app_assoc; reflexivity|].
    split; [|split; [now rewrite Hf2, Hf | now rewrite Hs2, Hs]].
    rewrite !skeleton_app, Hsk, Hsk2.
    destruct k as [|k]; [lia|].
    cbn [Nat.pred List.seq List.map List.flat_map].
    rewrite Z.add_0_r. cbn [app skeleton omap mark_of].
    do 2 f_equal. f_equal. f_equal.
    rewrite <- List.seq_shift, List.map_map.
    apply List.map_ext. intros i. f_equal. lia.
  - apply Z.ltb_ge in Hlast.
    assert (k = O) by lia. subst k.
    m_unfold. simpl.
    eexists _, (evs1 ++ [EvLogFailure (url m) (failure_message cfg e);
                          EvStat Failed true]), e.
    split; [reflexivity|]. simpl.
    split; [rewrite Htr1, <- !app_assoc; reflexivity|].
    rewrite !skeleton_app, Hsk.
    split; [reflexivity|]. split; [now rewrite Hf | now rewrite Hs].
Qed.

Lemma count_attempts_schedule (ds : list Z) :
  count_attempts (List.flat_map (fun d => [MAttempt; MBackoff d]) ds
                    ++ [MAttempt; MLogFailure; MStat Failed])
  = S (List.length ds).
Proof.
  unfold count_attempts.
  induction ds as [|d ds IH]; [reflexivity|].
  simpl in *. now rewrite IH.
Qed.

Lemma delays_of_schedule (ds : list Z) :
  delays_of (List.flat_map (fun d => [MAttempt; MBackoff d]) ds
               ++ [MAttempt; MLogFailure; MStat Failed])
  = ds.
Proof.
  unfold delays_of.
  induction ds as [|d ds IH]; [reflexivity|].
  cbn [List.flat_map app]. cbn [omap list_omap]. now rewrite IH.
Qed.

End Retry.

(** ** Outcomes *)

Section Outcomes.
Context {lib : PyLib}.
Variable py_hash : string -> Z.
Variable cfg : Config.

(** Every call returns, in one of five ways. *)
Lemma download_file_outcome (m : Memory) (w : World) :
  exists o b w' evs,
    download_file py_hash cfg m w = (Ret b, w') /\
    trace w' = trace w ++ evs /\
    outcome_holds py_hash cfg o m w w' b evs.
Proof.
  unfold download_file. unfold bind at 1, get.
  destruct (known (sid_of (url m)) w) eqn:Hknown.
  { exists SkippedKnown, true. m_unfold. simpl.
    eexists _, [EvStat Skipped true].
    split; [reflexivity|]. split; [reflexivity|].
    unfold outcome_holds, same_io. rewrite Hknown. conjs. }
  destruct (exists_nonempty w (output_path_of py_hash cfg m)) eqn:Hdisk.
  { exists SkippedOnDisk, true.
    unfold outcome_holds, same_io, recorded. rewrite Hknown, Hdisk.
    destruct (sid_truthy (sid_of (url m))); m_unfold; simpl.
    - eexists _, [EvSaveState; EvStat Skipped (stats_lock_held w)].
      split; [reflexivity|]. simpl.
      split; [rewrite <- !app_assoc; reflexivity|]. conjs.
    - eexists _, [EvStat Skipped (stats_lock_held w)].
      split; [reflexivity|]. conjs. }
  destruct (Z_le_gt_dec (max_retries cfg) 0) as [Hnone|Hsome].
  { exists NoAttempt, false, w, [].
    replace (Z.to_nat (max_retries cfg)) with O by lia.
    split; [reflexivity|]. split; [now rewrite app_nil_r|].
    unfold outcome_holds. rewrite Hknown, Hdisk. conjs. }
  destruct (retry_loop_effect cfg m (sid_of (url m)) (output_path_of py_hash cfg m)
              (Z.to_nat (max_retries cfg)) 0 w)
    as (b & w' & evs & Hl & Htr & Hb); [lia | lia |].
  destruct b.
  - destruct Hb as (Hs & Hrec & Hf & Hst).
    exists Succeeded, true, w', evs. split; [exact Hl|]. split; [exact Htr|].
    unfold outcome_holds. rewrite Hknown, Hdisk. conjs. lia.
  - destruct Hb as (Hs & Hd & Hsf & Hf & Hst).
    exists FailedTerminal, false, w', evs. split; [exact Hl|]. split; [exact Htr|].
    unfold outcome_holds. rewrite Hknown, Hdisk. conjs. lia.
Qed.



End Outcomes.

(** ** The scheduler *)

Section Quiet.











End Quiet.


Section QuietDownload.
Context {lib : PyLib}.
Variable py_hash : string -> Z.
Variable cfg : Config.




End QuietDownload.

Section Sequential.
Context {lib : PyLib}.
Variable py_hash : string -> Z.
Variable cfg : Config.

Lemma bind_ext {A B} (c : M A) (k1 k2 : A -> M B) (w : World) :
  (forall a w', k1 a w' = k2 a w') -> bind c k1 w = bind c k2 w.
Proof. intros H. unfold bind. destruct (c w) as [[a|e] w']; auto. Qed.







End Sequential.


(** ** Retry bound, counters and the State Store *)

(** C3 (amended): with [max_retries >= 1], a call that reaches the retry
    loop and whose every attempt fails makes exactly [max_retries] attempts,
    sleeps [2^0, 2^1, ..., 2^(max_retries-2)] between consecutive attempts
    and not after the last, appends one Failure Record, moves [failed] by
    one and nothing else, and returns [False]. *)
Theorem retry_bound_positive_retries {lib : PyLib} (py_hash : string -> Z)
    (cfg : Config) (m : Memory) (w : World) :
  1 <= max_retries cfg ->
  reaches_transfer py_hash cfg m w ->
  always_fails py_hash cfg m ->
  retry_bound py_hash cfg m w.
Proof.
  intros Hmax [Hknown Hdisk] Hfail.
  unfold retry_bound, download_file. unfold bind at 1, get.
  rewrite Hknown, Hdisk.
  destruct (retry_loop_always_fails py_hash cfg m Hfail
              (Z.to_nat (max_retries cfg)) 0 w)
    as (w' & evs & e & Hl & Htr & Hsk & Hf & Hs); [lia | lia |].
  assert (Hsched : skeleton evs = failing_schedule (max_retries cfg)).
  { rewrite Hsk. unfold failing_schedule, backoff_delays.
    replace (Nat.pred (Z.to_nat (max_retries cfg)))
      with (Z.to_nat (max_retries cfg - 1)) by lia.
    reflexivity. }
  exists w', evs, (failure_message cfg e).
  split; [exact Hl|]. split; [exact Htr|]. split; [exact Hsched|].
  unfold attempts, backoffs. rewrite Hsched. unfold failing_schedule.
  rewrite count_attempts_schedule, delays_of_schedule.
  unfold backoff_delays at 1. rewrite List.length_map, List.length_seq.
  conjs. lia.
Qed.

Lemma retry_bound_positive_retries_witness :
  1 <= max_retries (Sample.cfg 3) /\
  @reaches_transfer Sample.lib_down Sample.hash_a (Sample.cfg 3)
    Sample.with_sid Sample.fresh /\
  @always_fails Sample.lib_down Sample.hash_a (Sample.cfg 3) Sample.with_sid /\
  @retry_bound Sample.lib_down Sample.hash_a (Sample.cfg 3)
    Sample.with_sid Sample.fresh.
Proof.
  assert (H1 : 1 <= max_retries (Sample.cfg 3)) by (simpl; lia).
  assert (H2 : @reaches_transfer Sample.lib_down Sample.hash_a (Sample.cfg 3)
                 Sample.with_sid Sample.fresh)
    by (split; vm_compute; reflexivity).
  assert (H3 : @always_fails Sample.lib_down Sample.hash_a (Sample.cfg 3)
                 Sample.with_sid)
    by (intros w0; eexists _, _; reflexivity).
  exact (conj H1 (conj H2 (conj H3
           (@retry_bound_positive_retries Sample.lib_down Sample.hash_a
              (Sample.cfg 3) Sample.with_sid Sample.fresh H1 H2 H3)))).
Defined.

(** C3, as stated, fails for [max_retries = 0]: the loop body never runs,
    the call falls through to [return False], and neither a Failure Record
    nor a counter update is made. *)
Lemma retry_bound_fails_without_retries :
  @reaches_transfer Sample.lib_down Sample.hash_a (Sample.cfg 0)
    Sample.with_sid Sample.fresh /\
  @always_fails Sample.lib_down Sample.hash_a (Sample.cfg 0) Sample.with_sid /\
  @download_file Sample.lib_down Sample.hash_a (Sample.cfg 0)
    Sample.with_sid Sample.fresh = (Ret false, Sample.fresh) /\
  ~ @retry_bound Sample.lib_down Sample.hash_a (Sample.cfg 0)
      Sample.with_sid Sample.fresh.
Proof.
  assert (Hd : @download_file Sample.lib_down Sample.hash_a (Sample.cfg 0)
                 Sample.with_sid Sample.fresh = (Ret false, Sample.fresh))
    by (vm_compute; reflexivity).
  split; [split; vm_compute; reflexivity|].
  split; [intros w0; eexists _, _; reflexivity|].
  split; [exact Hd|].
  intros (w' & evs & msg & Hd' & _ & _ & _ & _ & Hf & _).
  rewrite Hd in Hd'. injection Hd' as <-.
  simpl in Hf. discriminate.
Qed.

(** The counter update on the branch "file already exists on disk" is
    made without taking the statistics lock. *)
Lemma skipped_on_disk_update_unlocked {lib : PyLib} (py_hash : string -> Z)
    (cfg : Config) (m : Memory) (w : World) :
  skipped_on_disk py_hash cfg m w ->
  stats_lock_held w = false ->
  exists w' evs,
    download_file py_hash cfg m w = (Ret true, w') /\
    trace w' = trace w ++ evs /\
    stat_updates evs = [(Skipped, false)].
Proof.
  intros [Hknown Hdisk] Hlock.
  destruct (download_file_outcome py_hash cfg m w) as (o & b & w' & evs & Hd & Htr & Ho).
  destruct o; cbn [outcome_holds] in Ho.
  - destruct Ho as (Hk & _). congruence.
  - destruct Ho as (_ & _ & -> & _ & _ & _ & _ & Hst).
    exists w', evs. rewrite Hlock in Hst. conjs.
  - destruct Ho as (_ & Hd' & _). congruence.
  - destruct Ho as (_ & Hd' & _). congruence.
  - destruct Ho as (_ & Hd' & _). congruence.
Qed.





(** C10: for a memory whose locator yields no [sid], a call of
    [download_file] leaves [self.downloaded_files] and the state file as
    they were, never takes the branch "already downloaded", and moves
    [skipped] only when the target exists on disk with content. *)
Theorem no_sid_never_recorded {lib : PyLib} (py_hash : string -> Z) (cfg : Config)
    (m : Memory) (w : World) :
  sid_truthy (sid_of (url m)) = false ->
  exists b w',
    download_file py_hash cfg m w = (Ret b, w') /\
    downloaded_files w' = downloaded_files w /\
    state_file w' = state_file w /\
    known (sid_of (url m)) w = false /\
    (skipped (stats w') = skipped (stats w) + 1 ->
     exists_nonempty w (output_path_of py_hash cfg m) = true).
Proof.
  intros Hsid.
  assert (Hk : known (sid_of (url m)) w = false)
    by (unfold known; now rewrite Hsid).
  destruct (download_file_outcome py_hash cfg m w) as (o & b & w' & evs & Hd & Htr & Ho).
  exists b, w'. split; [exact Hd|].
  destruct o; cbn [outcome_holds] in Ho; unfold recorded in Ho;
    rewrite ?Hsid in Ho.
  - destruct Ho as (Hk' & _). congruence.
  - destruct Ho as (_ & Hdisk & _ & _ & (Hdl & Hsf) & _). conjs. auto.
  - destruct Ho as (_ & _ & _ & _ & Hs & (Hdl & Hsf) & _). conjs.
    rewrite Hs. destruct (stats w); simpl. lia.
  - destruct Ho as (_ & _ & _ & _ & Hs & Hdl & Hsf & _). conjs.
    rewrite Hs. destruct (stats w); simpl. lia.
  - destruct Ho as (_ & _ & _ & _ & -> & _). conjs. lia.
Qed.

Lemma no_sid_never_recorded_witness :
  @sid_truthy (@sid_of Sample.lib_up (url Sample.without_sid)) = false /\
  exists b w',
    @download_file Sample.lib_up Sample.hash_a (Sample.cfg 3)
      Sample.without_sid Sample.fresh = (Ret b, w') /\
    downloaded_files w' = downloaded_files Sample.fresh /\
    state_file w' = state_file Sample.fresh /\
    known (@sid_of Sample.lib_up (url Sample.without_sid)) Sample.fresh = false /\
    (skipped (stats w') = skipped (stats Sample.fresh) + 1 ->
     exists_nonempty Sample.fresh
       (@output_path_of Sample.lib_up Sample.hash_a (Sample.cfg 3) Sample.without_sid)
     = true).
Proof.
  assert (H : @sid_truthy (@sid_of Sample.lib_up (url Sample.without_sid)) = false)
    by (vm_compute; reflexivity).
  exact (conj H (@no_sid_never_recorded Sample.lib_up Sample.hash_a (Sample.cfg 3)
                   Sample.without_sid Sample.fresh H)).
Defined.

(** ** Idempotence of a second run *)

Section Idempotence.
Context {lib : PyLib}.
Variable cfg : Config.

Lemma known_monotone (sid : option string) (w w' : World) :
  (forall k, is_Some (downloaded_files w !! k) ->
             is_Some (downloaded_files w' !! k)) ->
  known sid w = true -> known sid w' = true.
Proof.
  unfold known. intros Hmono H.
  apply andb_true_iff in H as [Ht Hl]. rewrite Ht. simpl.
  destruct (downloaded_files w !! sid_value sid) as [v|] eqn:Hv; [|discriminate].
  destruct (Hmono (sid_value sid)) as [v' ->]; [now rewrite Hv|reflexivity].
Qed.

Lemma recorded_facts (sid : option string) (p : Path) (w w' : World) :
  recorded sid p w w' ->
  (forall k, is_Some (downloaded_files w !! k) ->
             is_Some (downloaded_files w' !! k)) /\
  (state_saved w -> state_saved w') /\
  (sid_truthy sid = true -> known sid w' = true).
Proof.
  unfold recorded, state_saved, known.
  destruct (sid_truthy sid); intros [Hd Hs].
  - split; [|split].
    + intros k Hk. rewrite Hd.
      destruct (decide (sid_value sid = k)) as [->|Hne].
      * rewrite lookup_insert_eq. eauto.
      * now rewrite lookup_insert_ne.
    + intros _. now rewrite Hs.
    + intros _. rewrite Hd, lookup_insert_eq. reflexivity.
  - split; [|split].
    + intros k. now rewrite Hd.
    + intros H. now rewrite Hd, Hs.
    + discriminate.
Qed.

(** What one call does to the count of successes and to the State
    Store. *)
Lemma download_file_step (py_hash : string -> Z) (m : Memory) (w : World) :
  exists b w',
    download_file py_hash cfg m w = (Ret b, w') /\
    succeeded (stats w') = succeeded (stats w) + (if b then 1 else 0) /\
    total (stats w') = total (stats w) /\
    (forall k, is_Some (downloaded_files w !! k) ->
               is_Some (downloaded_files w' !! k)) /\
    (state_saved w -> state_saved w') /\
    (b = true -> sid_truthy (sid_of (url m)) = true ->
     known (sid_of (url m)) w' = true).
Proof.
  destruct (download_file_outcome py_hash cfg m w)
    as (o & b & w' & evs & Hd & _ & Ho).
  exists b, w'. split; [exact Hd|].
  unfold succeeded, state_saved.
  destruct o; cbn [outcome_holds] in Ho.
  - destruct Ho as (Hk & -> & Hs & Hdl & Hsf & _).
    rewrite Hs, Hdl, Hsf. unfold known in *. rewrite Hdl.
    destruct (stats w); cbn. conjs; auto; lia.
  - destruct Ho as (_ & _ & -> & Hs & Hrec & _).
    destruct (recorded_facts _ _ _ _ Hrec) as (Hm & Hsv & Hkn).
    rewrite Hs. destruct (stats w); cbn. conjs; auto; lia.
  - destruct Ho as (_ & _ & -> & _ & Hs & Hrec & _).
    destruct (recorded_facts _ _ _ _ Hrec) as (Hm & Hsv & Hkn).
    rewrite Hs. destruct (stats w); cbn. conjs; auto; lia.
  - destruct Ho as (_ & _ & -> & _ & Hs & Hdl & Hsf & _).
    rewrite Hs, Hdl, Hsf. destruct (stats w); cbn. conjs; auto; try lia; discriminate.
  - destruct Ho as (_ & _ & -> & _ & -> & _). conjs; auto; try lia; discriminate.
Qed.



(** [run] is the sequential loop over the parsed memories, after [total]
    is set. *)
Lemma run_unfold (py_hash : string -> Z) (html : string) (w : World) :
  run py_hash cfg html w
  = _run_sequential py_hash cfg (parse_html html)
      (set_stats (set_total (Z.of_nat (List.length (parse_html html))) (stats w)) w).
Proof.
  unfold run, bind, modify. now destruct (parse_html html).
Qed.

End Idempotence.




(** The same happens to any memory without [sid] once the process is
    restarted under another hash secret: the file of the first run is there,
    under a name the second run does not derive. *)
Lemma rerun_after_restart_refetches_without_sid :
  all_succeeded
    (@run_process (Ref.lib Sample.net_up [] Sample.export_without_sid)
       Sample.hash_a (Sample.cfg 3) "" Sample.empty_disk) /\
  stats (@run_process (Ref.lib Sample.net_up [] Sample.export_without_sid)
           Sample.hash_b (Sample.cfg 3) ""
           (disk_of (@run_process (Ref.lib Sample.net_up [] Sample.export_without_sid)
                       Sample.hash_a (Sample.cfg 3) "" Sample.empty_disk)))
  = {| total := 1; successful := 1; failed := 0; skipped := 0 |}.
Proof. split; vm_compute; reflexivity. Qed.

(** * Further properties of the executor *)

(** ** The State Store *)

Section Store.
Context {lib : PyLib}.
Variable py_hash : string -> Z.
Variable cfg : Config.

Lemma keeps_entries_refl (d : gmap string string) : keeps_entries d d.
Proof. intros k v H. exact H. Qed.

Lemma keeps_entries_trans (d1 d2 d3 : gmap string string) :
  keeps_entries d1 d2 -> keeps_entries d2 d3 -> keeps_entries d1 d3.
Proof. intros H1 H2 k v H. auto. Qed.

(** A [sid] is only ever recorded when it is not in the State Store. *)
Lemma recorded_keeps_entries (sid : option string) (p : Path) (w w' : World) :
  known sid w = false ->
  recorded sid p w w' ->
  keeps_entries (downloaded_files w) (downloaded_files w').
Proof.
  unfold known, recorded. intros Hk Hrec k v Hkv.
  destruct (sid_truthy sid).
  - destruct Hrec as [-> _]. simpl in Hk.
    destruct (decide (sid_value sid = k)) as [<-|Hne].
    + rewrite Hkv in Hk. discriminate.
    + now rewrite lookup_insert_ne.
  - destruct Hrec as [-> _]. exact Hkv.
Qed.

(** One call: the entries stay, the failure log is appended to, by one
    record of this memory exactly when [failed] moves. *)
Lemma download_file_books (m : Memory) (w : World) :
  exists b w' l,
    download_file py_hash cfg m w = (Ret b, w') /\
    keeps_entries (downloaded_files w) (downloaded_files w') /\
    failed_log w' = failed_log w ++ l /\
    Z.of_nat (List.length l) = failed (stats w') - failed (stats w) /\
    (forall r, In r l -> fst r = url m).
Proof.
  destruct (download_file_outcome py_hash cfg m w)
    as (o & b & w' & evs & Hd & _ & Ho).
  exists b, w'.
  destruct o; cbn [outcome_holds] in Ho.
  - destruct Ho as (_ & _ & Hs & Hdl & _ & Hf & _).
    exists []. rewrite app_nil_r, Hs, Hdl. destruct (stats w); cbn.
    conjs; [apply keeps_entries_refl | lia | intros r []].
  - destruct Ho as (Hk & _ & _ & Hs & Hrec & Hf & _).
    exists []. rewrite app_nil_r, Hs. destruct (stats w); cbn.
    conjs; [eapply recorded_keeps_entries; eauto | lia | intros r []].
  - destruct Ho as (Hk & _ & _ & _ & Hs & Hrec & Hf & _).
    exists []. rewrite app_nil_r, Hs. destruct (stats w); cbn.
    conjs; [eapply recorded_keeps_entries; eauto | lia | intros r []].
  - destruct Ho as (_ & _ & _ & _ & Hs & Hdl & _ & (e & Hf) & _).
    exists [(url m, failure_message cfg e)]. rewrite Hs, Hdl.
    destruct (stats w); cbn.
    conjs; [apply keeps_entries_refl | lia | intros r [<-|[]]; reflexivity].
  - destruct Ho as (_ & _ & _ & _ & -> & _).
    exists []. rewrite app_nil_r.
    conjs; [apply keeps_entries_refl | cbn; lia | intros r []].
Qed.

Lemma run_sequential_from_books (memories : list Memory) :
  forall (n i : Z) (w : World),
  exists w' l,
    run_sequential_from py_hash cfg n i memories w = (Ret tt, w') /\
    keeps_entries (downloaded_files w) (downloaded_files w') /\
    failed_log w' = failed_log w ++ l /\
    Z.of_nat (List.length l) = failed (stats w') - failed (stats w) /\
    (forall r, In r l -> exists m, In m memories /\ fst r = url m).
Proof.
  induction memories as [|memory rest IH]; intros n i w.
  - exists w, []. cbn. rewrite app_nil_r.
    conjs; [apply keeps_entries_refl | lia | intros r []].
  - cbn [run_sequential_from]. unfold bind at 1, emit, modify.
    set (w1 := set_trace _ w).
    destruct (download_file_books memory w1)
      as (b & w2 & l1 & Hd & Hk1 & Hf1 & Hn1 & Hu1).
    rewrite (bind_ret_eq _ _ _ _ _ Hd). unfold bind at 1, emit, modify.
    set (w3 := set_trace _ w2).
    assert (Hp : exists w4,
               (if (i <? n - 1) && b then emit EvPace else ret tt) w3 = (Ret tt, w4) /\
               stats w4 = stats w2 /\
               downloaded_files w4 = downloaded_files w2 /\
               failed_log w4 = failed_log w2).
    { destruct ((i <? n - 1) && b); eexists; conjs. }
    destruct Hp as (w4 & Hp & Hs4 & Hd4 & Hf4).
    rewrite (bind_ret_eq _ _ _ _ _ Hp).
    destruct (IH n (i + 1) w4) as (w' & l2 & Hr & Hk2 & Hf2 & Hn2 & Hu2).
    exists w', (l1 ++ l2). split; [exact Hr|].
    subst w1. cbn in Hk1, Hf1, Hn1.
    rewrite Hd4 in Hk2. rewrite Hf4 in Hf2. rewrite Hs4 in Hn2.
    split; [eapply keeps_entries_trans; eauto|].
    split; [now rewrite Hf2, Hf1, app_assoc|].
    split; [rewrite List.length_app; lia|].
    intros r Hin. apply in_app_or in Hin as [Hin|Hin].
    + exists memory. split; [now left | auto].
    + destruct (Hu2 r Hin) as (m & Hm & Hr'). exists m. split; [now right | auto].
Qed.

End Store.


(** X2: the State Store only grows: every entry a process loaded at
    start-up is still there, with the same path, after each call of
    [download_file] and at the end of a sequential run.  No entry is removed
    or overwritten. *)
Theorem state_store_keeps_entries {lib : PyLib} (py_hash : string -> Z) (cfg : Config) :
  (forall m w,
      keeps_entries (downloaded_files w)
        (downloaded_files (snd (download_file py_hash cfg m w)))) /\
  (forall html d,
      keeps_entries (load_state (disk_state_file d))
        (downloaded_files (run_process py_hash cfg html d))).
Proof.
  split.
  - intros m w.
    destruct (download_file_books py_hash cfg m w) as (b & w' & l & Hd & Hk & _).
    now rewrite Hd.
  - intros html d. unfold run_process. rewrite run_unfold. unfold _run_sequential.
    set (w0 := set_stats _ (init_world d)).
    destruct (run_sequential_from_books py_hash cfg (parse_html html)
                (Z.of_nat (List.length (parse_html html))) 0 w0)
      as (w1 & l & Hr & Hk & _).
    rewrite Hr. exact Hk.
Qed.

(** X3: the failure log is append-only and in step with the [failed]
    counter: a sequential run leaves the log it found, followed by exactly
    [failed] new records, each for the locator of a parsed memory. *)
Theorem failure_log_matches_failed_counter {lib : PyLib} (py_hash : string -> Z)
    (cfg : Config) (html : string) (d : Disk) :
  exists l,
    failed_log (run_process py_hash cfg html d) = disk_failed_log d ++ l /\
    Z.of_nat (List.length l) = failed (stats (run_process py_hash cfg html d)) /\
    (forall r, In r l -> exists m, In m (parse_html html) /\ fst r = url m).
Proof.
  unfold run_process. rewrite run_unfold. unfold _run_sequential.
  set (w0 := set_stats _ (init_world d)).
  destruct (run_sequential_from_books py_hash cfg (parse_html html)
              (Z.of_nat (List.length (parse_html html))) 0 w0)
    as (w1 & l & Hr & _ & Hf & Hn & Hu).
  rewrite Hr. cbn [snd]. exists l.
  subst w0. cbn in Hf, Hn. split; [exact Hf|]. split; [lia | exact Hu].
Qed.

(** X4: two descriptors that share a [sid] are transferred once: after a
    call for one of them came back [True], a call for the other, then or
    later, is answered from the State Store, with no request and no file
    operation; only [skipped] moves. *)
Theorem shared_sid_transferred_once {lib : PyLib} (py_hash : string -> Z)
    (cfg : Config) (m m' : Memory) (w w1 w2 : World) :
  sid_truthy (sid_of (url m)) = true ->
  sid_of (url m') = sid_of (url m) ->
  download_file py_hash cfg m w = (Ret true, w1) ->
  (forall k, is_Some (downloaded_files w1 !! k) ->
             is_Some (downloaded_files w2 !! k)) ->
  exists w3,
    download_file py_hash cfg m' w2 = (Ret true, w3) /\
    same_io w2 w3 /\
    stats w3 = bump Skipped (stats w2) /\
    downloaded_files w3 = downloaded_files w2 /\
    trace w3 = trace w2 ++ [EvStat Skipped true].
Proof.
  intros Hsid Hsame Hd Hlater.
  destruct (download_file_step cfg py_hash m w)
    as (b & w1' & Hd' & _ & _ & _ & _ & Hknown).
  rewrite Hd in Hd'. injection Hd' as <- <-.
  assert (Hk2 : known (sid_of (url m')) w2 = true).
  { rewrite Hsame. eapply known_monotone; [exact Hlater|]. auto. }
  destruct (download_file_outcome py_hash cfg m' w2)
    as (o & b & w3 & evs & Hd3 & Htr & Ho).
  destruct o; cbn [outcome_holds] in Ho;
    try (destruct Ho as (Hk' & _); congruence).
  destruct Ho as (_ & -> & Hs & Hdl & _ & _ & Hio & ->).
  exists w3. conjs.
Qed.

Lemma shared_sid_transferred_once_witness :
  exists w3,
    @download_file Sample.lib_up Sample.hash_a (Sample.cfg 3) SampleMore.same_sid
      (snd (@download_file Sample.lib_up Sample.hash_a (Sample.cfg 3)
              Sample.with_sid Sample.fresh)) = (Ret true, w3) /\
    same_io (snd (@download_file Sample.lib_up Sample.hash_a (Sample.cfg 3)
                    Sample.with_sid Sample.fresh)) w3 /\
    stats w3 = bump Skipped
                 (stats (snd (@download_file Sample.lib_up Sample.hash_a (Sample.cfg 3)
                                Sample.with_sid Sample.fresh))) /\
    downloaded_files w3
    = downloaded_files (snd (@download_file Sample.lib_up Sample.hash_a (Sample.cfg 3)
                               Sample.with_sid Sample.fresh)) /\
    trace w3 = trace (snd (@download_file Sample.lib_up Sample.hash_a (Sample.cfg 3)
                             Sample.with_sid Sample.fresh)) ++ [EvStat Skipped true].
Proof.
  apply (@shared_sid_transferred_once Sample.lib_up Sample.hash_a (Sample.cfg 3)
           Sample.with_sid SampleMore.same_sid Sample.fresh
           (snd (@download_file Sample.lib_up Sample.hash_a (Sample.cfg 3)
                   Sample.with_sid Sample.fresh))
           (snd (@download_file Sample.lib_up Sample.hash_a (Sample.cfg 3)
                   Sample.with_sid Sample.fresh))).
  - vm_compute; reflexivity.
  - vm_compute; reflexivity.
  - vm_compute; reflexivity.
  - intros k H; exact H.
Defined.



(** ** Frames *)

Section Preserves.
Context {X : Type}.
Variable f : World -> X.

Lemma preserves_ret {A} (a : A) : preserves f (ret a).
Proof. intros w. reflexivity. Qed.

Lemma preserves_raise {A} (e : exn) : preserves f (@raise A e).
Proof. intros w. reflexivity. Qed.

Lemma preserves_get : preserves f get.
Proof. intros w. reflexivity. Qed.

Lemma preserves_lift {A} (r : py_result A) : preserves f (lift r).
Proof. intros w. reflexivity. Qed.

Lemma preserves_modify (g : World -> World) :
  (forall w, f (g w) = f w) -> preserves f (modify g).
Proof. intros Hg w. apply Hg. Qed.

Lemma preserves_bind {A B} (c : M A) (k : A -> M B) :
  preserves f c -> (forall a, preserves f (k a)) -> preserves f (bind c k).
Proof.
  intros Hc Hk w. unfold bind. specialize (Hc w).
  destruct (c w) as [[a|e] w1]; simpl in *; [|exact Hc].
  now rewrite Hk.
Qed.

Lemma preserves_try_catch {A} (c : M A) (h : exn -> M A) :
  preserves f c -> (forall e, preserves f (h e)) -> preserves f (try_catch c h).
Proof.
  intros Hc Hh w. unfold try_catch. specialize (Hc w).
  destruct (c w) as [[a|e] w1]; simpl in *; [exact Hc|].
  now rewrite Hh.
Qed.

Lemma preserves_with_lock {A} (l : LockName) (c : M A) :
  (forall b w, f (set_lock l b w) = f w) ->
  preserves f c -> preserves f (with_lock l c).
Proof.
  intros Hl Hc w. unfold with_lock. specialize (Hc (set_lock l true w)).
  destruct (c (set_lock l true w)) as [r w1]; simpl in *.
  now rewrite Hl, Hc, Hl.
Qed.

(** What follows a computation does not move [f]: the sequence moves it
    as the computation does. *)
Lemma bind_preserves_tail {A B} (c : M A) (k : A -> M B) (w : World) :
  (forall a, preserves f (k a)) -> f (snd (bind c k w)) = f (snd (c w)).
Proof.
  intros Hk. unfold bind. destruct (c w) as [[a|e] w1]; simpl; [|reflexivity].
  apply Hk.
Qed.

End Preserves.

Ltac preserves_step :=
  match goal with
  | |- preserves _ (bind _ _) => apply preserves_bind; [|intros ?]
  | |- preserves _ (try_catch _ _) => apply preserves_try_catch; [|intros ?]
  | |- preserves _ (with_lock _ _) =>
      apply preserves_with_lock; [intros ? ?; reflexivity|]
  | |- preserves _ (ret _) => apply preserves_ret
  | |- preserves _ (raise _) => apply preserves_raise
  | |- preserves _ get => apply preserves_get
  | |- preserves _ (lift _) => apply preserves_lift
  | |- preserves _ (modify _) => apply preserves_modify; intros ?; reflexivity
  | |- preserves _ (emit _) => apply preserves_modify; intros ?; reflexivity
  | |- preserves _ (if ?b then _ else _) => destruct b
  | |- preserves _ (match ?x with _ => _ end) => destruct x
  end.

(** ** Attempts and requests *)

Section Budget.
Context {lib : PyLib}.
Variable py_hash : string -> Z.
Variable cfg : Config.

Lemma count_attempts_after (ds : list Z) (t : list Mark) :
  count_attempts (List.flat_map (fun d => [MAttempt; MBackoff d]) ds ++ t)
  = (List.length ds + count_attempts t)%nat.
Proof.
  unfold count_attempts.
  induction ds as [|d ds IH]; [reflexivity|].
  simpl in *. now rewrite IH.
Qed.

Lemma delays_of_after (ds : list Z) (t : list Mark) :
  delays_of (List.flat_map (fun d => [MAttempt; MBackoff d]) ds ++ t)
  = ds ++ delays_of t.
Proof.
  unfold delays_of.
  induction ds as [|d ds IH]; [reflexivity|].
  cbn [List.flat_map app]. cbn [omap list_omap]. now rewrite IH.
Qed.

(** The loop: [j] failed attempts with their backoff sleeps, then a last
    attempt that succeeds, or fails when the iterations are used up. *)
Lemma retry_loop_shape (m : Memory) (sid : option string) (p : Path) :
  forall (remaining : nat) (attempt : Z) (w : World),
    Z.of_nat remaining + attempt = max_retries cfg ->
    (1 <= remaining)%nat ->
    exists b w' evs j,
      retry_loop cfg m sid p remaining attempt w = (Ret b, w') /\
      trace w' = trace w ++ evs /\
      (j < remaining)%nat /\
      (b = false -> S j = remaining) /\
      skeleton evs
      = List.flat_map (fun d => [MAttempt; MBackoff d])
          (List.map (fun i => 2 ^ (attempt + Z.of_nat i)) (List.seq 0 j))
        ++ last_attempt b.
Proof.
  induction remaining as [|k IH]; intros attempt w Hsum Hpos; [lia|].
  cbn [retry_loop].
  destruct (attempt_body_effect m sid p w) as (r & w1 & evs1 & Ha & Htr1 & Hr).
  destruct r as [b|e].
  - destruct Hr as (-> & _ & _ & _ & Hsk & _).
    rewrite (try_catch_ret_eq _ _ _ _ _ Ha).
    exists true, w1, evs1, O. conjs; try lia; try discriminate; exact Hsk.
  - destruct Hr as (_ & Hsk & _).
    rewrite (try_catch_raise_eq _ _ _ _ _ Ha).
    destruct (attempt <? max_retries cfg - 1) eqn:Hlast.
    + apply Z.ltb_lt in Hlast.
      unfold bind at 1, emit, modify.
      destruct (IH (attempt + 1) (set_trace (trace w1 ++ [EvBackoff (2 ^ attempt)]) w1))
        as (b & w2 & evs2 & j & Hl & Htr2 & Hj & Hfull & Hsk2); [lia | lia |].
      rewrite Hl. simpl in Htr2.
      exists b, w2, (evs1 ++ [EvBackoff (2 ^ attempt)] ++ evs2), (S j).
      split; [reflexivity|].
      split; [rewrite Htr2, Htr1, <- !app_assoc; reflexivity|].
      split; [lia|]. split; [intros Hb; specialize (Hfull Hb); lia|].
      rewrite !skeleton_app, Hsk, Hsk2.
      cbn [List.seq List.map List.flat_map].
      rewrite Z.add_0_r. cbn [app skeleton omap mark_of].
      do 2 f_equal. f_equal. f_equal.
      rewrite <- List.seq_shift, List.map_map.
      apply List.map_ext. intros i. f_equal. lia.
    + apply Z.ltb_ge in Hlast.
      assert (k = O) by lia. subst k.
      m_unfold. simpl.
      eexists false, _, (evs1 ++ [EvLogFailure (url m) (failure_message cfg e);
                                   EvStat Failed true]), O.
      split; [reflexivity|]. simpl.
      split; [rewrite Htr1, <- !app_assoc; reflexivity|].
      split; [lia|]. split; [reflexivity|].
      rewrite !skeleton_app, Hsk. reflexivity.
Qed.

(** *** Requests *)

Lemma transfer_requests (m : Memory) (p : Path) (w : World) :
  (requests_made w < requests_made (snd (transfer m p w))
   <= requests_made w + requests_per_attempt m)%nat.
Proof.
  unfold transfer, requests_per_attempt.
  destruct (is_get_request m).
  - m_unfold. simpl.
    destruct (http _ _) as [response|e]; simpl; [|lia].
    destruct (_ && _); simpl; lia.
  - destruct (PyStr.split_once "?" (url m)) as [base_url rest].
    m_unfold. simpl.
    destruct (http _ _) as [response|e]; simpl; [|lia].
    destruct (_ && _); simpl; [lia|].
    destruct (http _ _) as [response2|e]; simpl; [|lia].
    destruct (_ && _); simpl; lia.
Qed.

Lemma extract_zip_no_request (p : Path) :
  preserves requests_made (_extract_zip_if_needed p).
Proof.
  unfold _extract_zip_if_needed, write_file, unlink, rename, fs_op.
  repeat preserves_step.
Qed.

Lemma record_success_no_request (sid : option string) (p : Path) :
  preserves requests_made (record_success sid p).
Proof.
  unfold record_success, save_state, record_download.
  repeat preserves_step.
Qed.

Lemma attempt_body_requests (m : Memory) (sid : option string) (p : Path) (w : World) :
  (requests_made w < requests_made (snd (attempt_body m sid p w))
   <= requests_made w + requests_per_attempt m)%nat.
Proof.
  unfold attempt_body.
  rewrite (bind_preserves_tail requests_made).
  - apply transfer_requests.
  - intros []. unfold inc_stat.
    pose proof extract_zip_no_request. pose proof record_success_no_request.
    repeat first [apply extract_zip_no_request
                 | apply record_success_no_request
                 | preserves_step].
Qed.

Lemma retry_loop_requests (m : Memory) (sid : option string) (p : Path) :
  forall (remaining : nat) (attempt : Z) (w : World),
    (requests_made (snd (retry_loop cfg m sid p remaining attempt w))
     <= requests_made w + requests_per_attempt m * remaining)%nat.
Proof.
  induction remaining as [|k IH]; intros attempt w; cbn [retry_loop].
  - simpl. lia.
  - unfold try_catch.
    pose proof (attempt_body_requests m sid p w) as Ha.
    destruct (attempt_body m sid p w) as [[b|e] w1]; simpl in Ha |- *; [nia|].
    destruct (attempt <? max_retries cfg - 1).
    + unfold bind at 1, emit, modify.
      specialize (IH (attempt + 1) (set_trace (trace w1 ++ [EvBackoff (2 ^ attempt)]) w1)).
      simpl in IH. nia.
    + m_unfold. simpl. nia.
Qed.

End Budget.

(** X6: a call that reaches the retry loop, with [max_retries >= 1], makes
    [j + 1 <= max_retries] attempts: [j] failed ones, each followed by its
    backoff sleep [2^0, ..., 2^(j-1)], and a last one that either succeeds
    and is counted as [successful], or fails, and then only as attempt number
    [max_retries], with one failure record and [failed] counted.  No success
    is logged as a failure and no call gives up early. *)
Theorem retry_stops_at_first_success {lib : PyLib} (py_hash : string -> Z)
    (cfg : Config) (m : Memory) (w : World) :
  1 <= max_retries cfg ->
  reaches_transfer py_hash cfg m w ->
  exists b w' evs j,
    download_file py_hash cfg m w = (Ret b, w') /\
    trace w' = trace w ++ evs /\
    skeleton evs = failed_attempts j ++ last_attempt b /\
    attempts evs = S j /\
    (attempts evs <= Z.to_nat (max_retries cfg))%nat /\
    (b = false -> attempts evs = Z.to_nat (max_retries cfg)) /\
    backoffs evs = List.map (fun i => 2 ^ Z.of_nat i) (List.seq 0 j).
Proof.
  intros Hmax [Hknown Hdisk].
  unfold download_file. unfold bind at 1, get. rewrite Hknown, Hdisk.
  destruct (retry_loop_shape cfg m (sid_of (url m)) (output_path_of py_hash cfg m)
              (Z.to_nat (max_retries cfg)) 0 w)
    as (b & w' & evs & j & Hl & Htr & Hj & Hfull & Hsk); [lia | lia |].
  assert (Hsk' : skeleton evs = failed_attempts j ++ last_attempt b) by exact Hsk.
  exists b, w', evs, j.
  split; [exact Hl|]. split; [exact Htr|]. split; [exact Hsk'|].
  unfold attempts, backoffs. rewrite Hsk'. unfold failed_attempts.
  rewrite count_attempts_after, delays_of_after, List.length_map, List.length_seq.
  assert (Hc : count_attempts (last_attempt b) = 1%nat) by now destruct b.
  assert (Hd : delays_of (last_attempt b) = []) by now destruct b.
  rewrite Hc, Hd, app_nil_r.
  split; [lia|]. split; [lia|]. split; [|reflexivity].
  intros Hb. specialize (Hfull Hb). lia.
Qed.

Lemma retry_stops_at_first_success_witness :
  1 <= max_retries (Sample.cfg 3) /\
  @reaches_transfer Sample.lib_up Sample.hash_a (Sample.cfg 3)
    Sample.with_sid Sample.fresh /\
  exists b w' evs j,
    @download_file Sample.lib_up Sample.hash_a (Sample.cfg 3)
      Sample.with_sid Sample.fresh = (Ret b, w') /\
    trace w' = trace Sample.fresh ++ evs /\
    skeleton evs = failed_attempts j ++ last_attempt b /\
    attempts evs = S j /\
    (attempts evs <= Z.to_nat (max_retries (Sample.cfg 3)))%nat /\
    (b = false -> attempts evs = Z.to_nat (max_retries (Sample.cfg 3))) /\
    backoffs evs = List.map (fun i => 2 ^ Z.of_nat i) (List.seq 0 j).
Proof.
  assert (H1 : 1 <= max_retries (Sample.cfg 3)) by (simpl; lia).
  assert (H2 : @reaches_transfer Sample.lib_up Sample.hash_a (Sample.cfg 3)
                 Sample.with_sid Sample.fresh)
    by (split; vm_compute; reflexivity).
  exact (conj H1 (conj H2
           (@retry_stops_at_first_success Sample.lib_up Sample.hash_a
              (Sample.cfg 3) Sample.with_sid Sample.fresh H1 H2))).
Defined.

(** X7: the network budget of a descriptor: a call of [download_file]
    issues at most [max_retries] requests for a GET memory and at most
    [2 * max_retries] for a POST memory, whatever the answers; a descriptor
    that is skipped issues none. *)
Theorem requests_per_descriptor_bounded {lib : PyLib} (py_hash : string -> Z)
    (cfg : Config) (m : Memory) (w : World) :
  (requests_made (snd (download_file py_hash cfg m w))
   <= requests_made w + requests_per_attempt m * Z.to_nat (max_retries cfg))%nat /\
  (known (sid_of (url m)) w = true \/
   exists_nonempty w (output_path_of py_hash cfg m) = true ->
   requests_made (snd (download_file py_hash cfg m w)) = requests_made w).
Proof.
  assert (Hskip : known (sid_of (url m)) w = true \/
                  exists_nonempty w (output_path_of py_hash cfg m) = true ->
                  requests_made (snd (download_file py_hash cfg m w)) = requests_made w).
  { unfold download_file. unfold bind at 1, get.
    destruct (known (sid_of (url m)) w) eqn:Hknown; [reflexivity|].
    destruct (exists_nonempty w (output_path_of py_hash cfg m)) eqn:Hdisk.
    - intros _. destruct (sid_truthy (sid_of (url m))); reflexivity.
    - intros [H|H]; discriminate. }
  split; [|exact Hskip].
  destruct (known (sid_of (url m)) w) eqn:Hknown;
    [rewrite Hskip by (now left); lia|].
  destruct (exists_nonempty w (output_path_of py_hash cfg m)) eqn:Hdisk;
    [rewrite Hskip by (now right); lia|].
  unfold download_file. unfold bind at 1, get. rewrite Hknown, Hdisk.
  apply retry_loop_requests.
Qed.

(** ** Archive normalisation: what it leaves alone *)

(** X8: a payload that is not an archive, an archive without a
    [-main.jpg] / [-main.mp4] entry, and a missing file are left exactly as
    they are: no file operation, no warning, nothing else changes.  When
    opening the archive raises, the only effect is the warning. *)
Theorem extract_zip_leaves_other_payloads {lib : PyLib} (p : Path) (w : World) :
  (files w !! p = None -> _extract_zip_if_needed p w = (Ret tt, w)) /\
  (forall data,
      files w !! p = Some data -> is_zipfile data = false ->
      _extract_zip_if_needed p w = (Ret tt, w)) /\
  (forall data names,
      files w !! p = Some data -> is_zipfile data = true ->
      zip_namelist data = Ret names ->
      (forall n, In n names -> is_main_name n = false) ->
      _extract_zip_if_needed p w = (Ret tt, w)) /\
  (forall data e,
      files w !! p = Some data -> is_zipfile data = true ->
      zip_namelist data = Raise e ->
      _extract_zip_if_needed p w
      = (Ret tt, set_trace (trace w ++ [EvWarn e]) w)).
Proof.
  unfold _extract_zip_if_needed, try_catch, bind, get, lift, ret, emit, modify.
  split; [|split; [|split]].
  - now intros ->.
  - intros data -> ->. reflexivity.
  - intros data names -> -> -> Hnone.
    assert (Hfind : find_main_file names = None).
    { unfold find_main_file.
      destruct (List.find is_main_name names) as [n|] eqn:Hf; [|reflexivity].
      apply List.find_some in Hf as [Hin Hn]. rewrite (Hnone n Hin) in Hn.
      discriminate. }
    now rewrite Hfind.
  - intros data e -> -> ->. reflexivity.
Qed.

(** X9: normalisation never raises and is confined to the target and its
    [temp_] sibling: every other file of the output directory is as before,
    the State Store, the counters and the failure log are untouched, no
    request is made, and a target that existed still exists afterwards. *)
Theorem extract_zip_is_confined {lib : PyLib} (p : Path) (w : World) :
  exists w',
    _extract_zip_if_needed p w = (Ret tt, w') /\
    (forall q, q <> p -> q <> temp_path_of p -> files w' !! q = files w !! q) /\
    (is_Some (files w !! p) -> is_Some (files w' !! p)) /\
    same_books w w' /\
    requests_made w' = requests_made w.
Proof.
  pose proof (temp_path_fresh p) as Hfresh.
  unfold _extract_zip_if_needed. m_unfold.
  destruct (files w !! p) as [data|] eqn:Hfile;
    [|exists w; rewrite Hfile; now repeat split].
  destruct (is_zipfile data);
    [|exists w; rewrite Hfile; now repeat split].
  destruct (zip_namelist data) as [names|e];
    [|eexists; split; [reflexivity|]; simpl; rewrite Hfile; now repeat split].
  destruct (find_main_file names) as [name|];
    [|exists w; rewrite Hfile; now repeat split].
  destruct (PyStr.truthy name);
    [|exists w; rewrite Hfile; now repeat split].
  simpl.
  destruct (zip_read data name) as [payload|e]; simpl.
  - rewrite !lookup_insert_ne by congruence. rewrite Hfile. simpl.
    rewrite lookup_delete_ne by congruence. rewrite lookup_insert_eq. simpl.
    eexists. split; [reflexivity|]. simpl.
    split; [|split; [|now repeat split]].
    + intros q Hq Ht.
      rewrite lookup_insert_ne by congruence.
      rewrite !lookup_delete_ne by congruence.
      now rewrite !lookup_insert_ne by congruence.
    + intros _. rewrite lookup_insert_eq. eauto.
  - eexists. split; [reflexivity|]. simpl.
    split; [|split; [|now repeat split]].
    + intros q Hq Ht. now rewrite lookup_insert_ne by congruence.
    + intros _. rewrite lookup_insert_ne by congruence. rewrite Hfile. eauto.
Qed.

(** ** Transfers: failing network, empty body, stored payload *)

Section Transfers.
Context {lib : PyLib}.
Variable py_hash : string -> Z.
Variable cfg : Config.







End Transfers.







Section EmptyBody.
Context {lib : PyLib}.
Variable py_hash : string -> Z.
Variable cfg : Config.



End EmptyBody.



(** ** The directive pattern *)

Section DirectiveFacts.
Import DirectiveWords.

Lemma lstrip_spaces (ws t : string) :
  all_space ws = true -> PyStr.lstrip (ws +:+ t) = PyStr.lstrip t.
Proof.
  induction ws as [|c ws IH]; intros H; [reflexivity|].
  cbn [all_space] in H. apply andb_true_iff in H as [Hc Hws].
  cbn [String.append PyStr.lstrip]. rewrite Hc. auto.
Qed.

(** [lstrip] takes a run of whitespace off the front. *)
Lemma lstrip_split (s : string) :
  exists ws, s = ws +:+ PyStr.lstrip s /\ all_space ws = true.
Proof.
  induction s as [|c s (ws & Hs & Hws)].
  - exists "". now split.
  - cbn [PyStr.lstrip]. destruct (PyStr.is_space c) eqn:Hc.
    + exists (String c ws). cbn [String.append all_space].
      rewrite Hc, Hws. split; [now f_equal | reflexivity].
    + exists "". now split.
Qed.

Lemma startswith_app (p s : string) :
  PyStr.startswith p s = true -> exists post, s = p +:+ post.
Proof.
  unfold PyStr.startswith.
  destruct (PyStr.strip_prefix p s) as [post|] eqn:H; [|discriminate].
  intros _. exists post. now apply strip_prefix_app.
Qed.

Lemma startswith_of_app (p post : string) : PyStr.startswith p (p +:+ post) = true.
Proof. unfold PyStr.startswith. now rewrite strip_prefix_of_app. Qed.

(** The tail of the pattern on the tail of a call. *)
Lemma match_tail_call (ws1 ws2 post : string) (flag : bool) :
  all_space ws1 = true -> all_space ws2 = true ->
  Directive.match_tail
    ("'," +:+ ws1 +:+ "this," +:+ ws2 +:+ literal flag +:+ ")" +:+ post)
  = Some (literal flag).
Proof.
  intros H1 H2. unfold Directive.match_tail.
  rewrite (strip_prefix_of_app "',").
  rewrite (lstrip_spaces _ _ H1).
  change (PyStr.lstrip ("this," +:+ ws2 +:+ literal flag +:+ ")" +:+ post))
    with ("this," +:+ ws2 +:+ literal flag +:+ ")" +:+ post).
  rewrite (strip_prefix_of_app "this,").
  rewrite (lstrip_spaces _ _ H2).
  destruct flag; reflexivity.
Qed.

(** A tail that matches is [',] whitespace [this,] whitespace, one of the
    two literals, and the closing parenthesis. *)
Lemma match_tail_shape (s flag : string) :
  Directive.match_tail s = Some flag ->
  exists ws1 ws2 post,
    s = "'," +:+ ws1 +:+ "this," +:+ ws2 +:+ flag +:+ ")" +:+ post /\
    all_space ws1 = true /\ all_space ws2 = true /\
    (flag = "true" \/ flag = "false").
Proof.
  unfold Directive.match_tail.
  destruct (PyStr.strip_prefix "'," s) as [s1|] eqn:H1; [|discriminate].
  destruct (PyStr.strip_prefix "this," (PyStr.lstrip s1)) as [s2|] eqn:H2;
    [|discriminate].
  apply strip_prefix_app in H1. apply strip_prefix_app in H2.
  destruct (lstrip_split s1) as (ws1 & Hs1 & Hws1).
  destruct (lstrip_split s2) as (ws2 & Hs2 & Hws2).
  intros H.
  assert (Hcase : exists post,
             PyStr.lstrip s2 = flag +:+ ")" +:+ post /\
             (flag = "true" \/ flag = "false")).
  { destruct (PyStr.startswith "true)" (PyStr.lstrip s2)) eqn:Ht.
    - injection H as <-. apply startswith_app in Ht as (post & ->).
      exists post. split; [reflexivity | now left].
    - destruct (PyStr.startswith "false)" (PyStr.lstrip s2)) eqn:Hf; [|discriminate].
      injection H as <-. apply startswith_app in Hf as (post & ->).
      exists post. split; [reflexivity | now right]. }
  destruct Hcase as (post & Hl & Hflag).
  exists ws1, ws2, post. split; [|now repeat split].
  rewrite H1. f_equal. f_equal. rewrite Hs1, H2. f_equal.
  cbn [String.append]. do 5 f_equal. rewrite Hs2, Hl. reflexivity.
Qed.

(** The lazy group takes a plain locator whole. *)
Lemma lazy_group_plain (u rest flag : string) :
  u <> "" -> plain u = true ->
  Directive.match_tail rest = Some flag ->
  Directive.lazy_group (u +:+ rest) = Some (u, flag).
Proof.
  intros Hne Hplain Htail.
  induction u as [|c u IH]; [congruence|].
  cbn [plain] in Hplain.
  apply andb_true_iff in Hplain as [Hc Hu].
  apply andb_true_iff in Hc as [Hq Hn].
  apply negb_true_iff in Hq. apply negb_true_iff in Hn.
  cbn [String.append Directive.lazy_group]. rewrite Hn.
  destruct u as [|c2 u].
  - cbn [String.append]. now rewrite Htail.
  - assert (Hnone : Directive.match_tail (String c2 u +:+ rest) = None).
    { cbn [plain] in Hu.
      apply andb_true_iff in Hu as [Hc2 _].
      apply andb_true_iff in Hc2 as [Hq2 _]. apply negb_true_iff in Hq2.
      unfold Directive.match_tail. cbn [String.append PyStr.strip_prefix].
      rewrite Ascii.eqb_sym, Hq2. reflexivity. }
    rewrite Hnone, IH; [reflexivity | discriminate | exact Hu].
Qed.

(** Group 1 of the lazy group is a non-empty prefix without newline,
    followed by a tail that matches. *)
Lemma lazy_group_shape (s g flag : string) :
  Directive.lazy_group s = Some (g, flag) ->
  exists rest,
    s = g +:+ rest /\ Directive.match_tail rest = Some flag /\
    g <> "" /\ no_newline g = true.
Proof.
  revert g. induction s as [|c s IH]; intros g; cbn [Directive.lazy_group].
  - discriminate.
  - destruct (Directive.is_newline c) eqn:Hn; [discriminate|].
    destruct (Directive.match_tail s) as [f|] eqn:Ht.
    + intros [= <- <-]. exists s. cbn [no_newline]. rewrite Hn.
      repeat split; [exact Ht | discriminate].
    + destruct (Directive.lazy_group s) as [[g' f]|] eqn:Hg; [|discriminate].
      intros [= <- <-]. destruct (IH g' eq_refl) as (rest & -> & Hr & _ & Hnl).
      exists rest. cbn [no_newline String.append]. rewrite Hn, Hnl.
      repeat split; [exact Hr | discriminate].
Qed.

Lemma search_shape (s u flag : string) :
  Directive.search s = Some (u, flag) ->
  exists pre ws1 ws2 post,
    s = pre +:+ call u ws1 ws2 flag post /\
    all_space ws1 = true /\ all_space ws2 = true /\
    u <> "" /\ no_newline u = true /\
    (flag = "true" \/ flag = "false").
Proof.
  assert (Hhere : forall t, Directive.match_here t = Some (u, flag) ->
            exists ws1 ws2 post,
              t = call u ws1 ws2 flag post /\
              all_space ws1 = true /\ all_space ws2 = true /\
              u <> "" /\ no_newline u = true /\
              (flag = "true" \/ flag = "false")).
  { intros t. unfold Directive.match_here.
    destruct (PyStr.strip_prefix _ t) as [rest|] eqn:Hp; [|discriminate].
    intros Hg. apply strip_prefix_app in Hp.
    apply lazy_group_shape in Hg as (rest' & -> & Ht & Hne & Hnl).
    apply match_tail_shape in Ht as (ws1 & ws2 & post & -> & H1 & H2 & Hf).
    exists ws1, ws2, post. split; [exact Hp | now repeat split]. }
  induction s as [|c s IH]; cbn [Directive.search].
  - destruct (Directive.match_here "") as [r|] eqn:Hm; [|discriminate].
    intros [= ->]. destruct (Hhere _ Hm) as (ws1 & ws2 & post & Hs & Hrest).
    exists "", ws1, ws2, post. split; [exact Hs | exact Hrest].
  - destruct (Directive.match_here (String c s)) as [r|] eqn:Hm.
    + intros [= ->]. destruct (Hhere _ Hm) as (ws1 & ws2 & post & Hs & Hrest).
      exists "", ws1, ws2, post. split; [exact Hs | exact Hrest].
    + intros H. destruct (IH H) as (pre & ws1 & ws2 & post & -> & Hrest).
      exists (String c pre), ws1, ws2, post. split; [reflexivity | exact Hrest].
Qed.

End DirectiveFacts.

(** X14: reading back a directive: for a row of at least four cells whose
    fourth cell carries [downloadMemories('<u>', this, <flag>)], with
    whitespace after the commas as it pleases, a non-empty locator [u]
    without quote or newline, and anything after the call, [parse_html]'s row
    handler returns the memory with exactly that locator, the texts of cells
    0 and 1 as date and media type, and [is_get_request] equal to the
    flag. *)
Theorem parse_row_reads_directive
    (c0 c1 c2 c3 : Cell) (more : list Cell)
    (u ws1 ws2 post : string) (flag : bool) :
  u <> "" ->
  DirectiveWords.plain u = true ->
  DirectiveWords.all_space ws1 = true ->
  DirectiveWords.all_space ws2 = true ->
  cell_onclick c3
  = Some (DirectiveWords.call u ws1 ws2 (DirectiveWords.literal flag) post) ->
  parse_row (c0 :: c1 :: c2 :: c3 :: more)
  = Some {| url := u; date := cell_text c0; media_type := cell_text c1;
            is_get_request := flag |}.
Proof.
  intros Hne Hplain H1 H2 Hclick.
  assert (Hsearch : Directive.search
                      (DirectiveWords.call u ws1 ws2 (DirectiveWords.literal flag) post)
                    = Some (u, DirectiveWords.literal flag)).
  { assert (Hhere : Directive.match_here
                      (DirectiveWords.call u ws1 ws2 (DirectiveWords.literal flag) post)
                    = Some (u, DirectiveWords.literal flag)).
    { unfold Directive.match_here, DirectiveWords.call.
      rewrite (strip_prefix_of_app "downloadMemories('").
      apply lazy_group_plain; auto. now apply match_tail_call. }
    destruct (DirectiveWords.call u ws1 ws2 (DirectiveWords.literal flag) post);
      cbn [Directive.search]; now rewrite Hhere. }
  unfold parse_row. cbn [List.length]. simpl. rewrite Hclick, Hsearch.
  now destruct flag.
Qed.

Lemma parse_row_reads_directive_witness :
  parse_row
    ({| cell_text := "2021-03-04 05:06:07 UTC"; cell_onclick := None |}
     :: {| cell_text := "Video"; cell_onclick := None |}
     :: {| cell_text := ""; cell_onclick := None |}
     :: {| cell_text := "Download";
           cell_onclick :=
             Some (DirectiveWords.call "https://h/p?sid=k" " " "  "
                     (DirectiveWords.literal true) "; return false;") |}
     :: [])
  = Some {| url := "https://h/p?sid=k"; date := "2021-03-04 05:06:07 UTC";
            media_type := "Video"; is_get_request := true |}.
Proof.
  apply (parse_row_reads_directive
           {| cell_text := "2021-03-04 05:06:07 UTC"; cell_onclick := None |}
           {| cell_text := "Video"; cell_onclick := None |}
           {| cell_text := ""; cell_onclick := None |}
           {| cell_text := "Download";
              cell_onclick :=
                Some (DirectiveWords.call "https://h/p?sid=k" " " "  "
                        (DirectiveWords.literal true) "; return false;") |}
           [] "https://h/p?sid=k" " " "  " "; return false;" true).
  - discriminate.
  - reflexivity.
  - reflexivity.
  - reflexivity.
  - reflexivity.
Defined.

(** X15: nothing is invented by the extractor: every memory [parse_html]
    returns comes from a row with at least four cells whose fourth cell has a
    link with an [onclick] text that holds a call
    [downloadMemories('<url>', this, true|false)]; the memory's locator is
    the non-empty, newline-free text between the quotes, its date and media
    type are the texts of cells 0 and 1, and [is_get_request] tells whether
    the literal is [true].  There are at most as many memories as
    rows. *)
Theorem parse_html_sound {lib : PyLib} (html : string) :
  (List.length (parse_html html) <= List.length (soup_rows html))%nat /\
  forall m, In m (parse_html html) ->
    exists cells c0 c1 c3 pre ws1 ws2 flag post,
      In cells (soup_rows html) /\
      (4 <= List.length cells)%nat /\
      cells !! 0%nat = Some c0 /\ cells !! 1%nat = Some c1 /\
      cells !! 3%nat = Some c3 /\
      cell_onclick c3
      = Some (pre +:+ DirectiveWords.call (url m) ws1 ws2 flag post) /\
      DirectiveWords.all_space ws1 = true /\
      DirectiveWords.all_space ws2 = true /\
      url m <> "" /\ DirectiveWords.no_newline (url m) = true /\
      (flag = "true" \/ flag = "false") /\
      date m = cell_text c0 /\ media_type m = cell_text c1 /\
      is_get_request m = String.eqb flag "true".
Proof.
  unfold parse_html. split.
  - induction (soup_rows html) as [|cells rows IH]; [reflexivity|].
    cbn [omap list_omap]. destruct (parse_row cells); cbn [List.length]; lia.
  - intros m Hin. apply list_elem_of_In in Hin.
    apply list_elem_of_omap in Hin as (cells & Hcells & Hrow).
    apply list_elem_of_In in Hcells.
    unfold parse_row in Hrow.
    destruct (4 <=? List.length cells)%nat eqn:Hlen; [|discriminate].
    apply Nat.leb_le in Hlen.
    destruct (cells !! 0%nat) as [c0|] eqn:H0; [|discriminate].
    destruct (cells !! 1%nat) as [c1|] eqn:H1; [|discriminate].
    destruct (cells !! 3%nat) as [c3|] eqn:H3; [|discriminate].
    destruct (cell_onclick c3) as [onclick|] eqn:Hclick; [|discriminate].
    destruct (Directive.search onclick) as [[u flag]|] eqn:Hsearch; [|discriminate].
    injection Hrow as <-. cbn [url date media_type is_get_request].
    apply search_shape in Hsearch
      as (pre & ws1 & ws2 & post & -> & Hw1 & Hw2 & Hne & Hnl & Hflag).
    exists cells, c0, c1, c3, pre, ws1, ws2, flag, post.
    now repeat split.
Qed.

(** ** Independence of the hash secret *)

Section HashIndependence.
Context {lib : PyLib}.
Variable cfg : Config.

Lemma output_path_sid_stable (h1 h2 : string -> Z) (m : Memory) :
  sid_truthy (sid_of (url m)) = true ->
  output_path_of h1 cfg m = output_path_of h2 cfg m.
Proof.
  intros H. unfold output_path_of.
  now rewrite (generate_filename_sid_stable h1 h2 m H).
Qed.

Lemma download_file_sid_stable (h1 h2 : string -> Z) (m : Memory) (w : World) :
  sid_truthy (sid_of (url m)) = true ->
  download_file h1 cfg m w = download_file h2 cfg m w.
Proof.
  intros H. unfold download_file.
  now rewrite (output_path_sid_stable h1 h2 m H).
Qed.

Lemma bind_cong {A B} (c1 c2 : M A) (k1 k2 : A -> M B) (w : World) :
  c1 w = c2 w -> (forall a w', k1 a w' = k2 a w') -> bind c1 k1 w = bind c2 k2 w.
Proof.
  intros Hc Hk. unfold bind. rewrite Hc.
  destruct (c2 w) as [[a|e] w']; auto.
Qed.

Lemma run_sequential_from_sid_stable (h1 h2 : string -> Z) (memories : list Memory) :
  (forall m, In m memories -> sid_truthy (sid_of (url m)) = true) ->
  forall n i w,
    run_sequential_from h1 cfg n i memories w
    = run_sequential_from h2 cfg n i memories w.
Proof.
  induction memories as [|memory rest IH]; intros Hall n i w; [reflexivity|].
  cbn [run_sequential_from].
  apply bind_ext; intros _ w1.
  apply bind_cong;
    [apply download_file_sid_stable; apply Hall; now left|].
  intros b w2.
  apply bind_ext; intros _ w3.
  apply bind_ext; intros _ w4.
  apply IH. intros m Hin. apply Hall. now right.
Qed.

End HashIndependence.

(** X16: for an export whose memories all carry a [sid], a whole
    sequential run does not depend on the interpreter's hash secret: two
    processes started on the same directory with different secrets end in
    the same world, with the same files under the same names, the same
    State Store, counters, log and trace. *)
Theorem run_independent_of_hash {lib : PyLib} (h1 h2 : string -> Z) (cfg : Config)
    (html : string) (d : Disk) :
  (forall m, In m (parse_html html) -> sid_truthy (sid_of (url m)) = true) ->
  run_process h1 cfg html d = run_process h2 cfg html d.
Proof.
  intros Hall. unfold run_process. rewrite !run_unfold. unfold _run_sequential.
  f_equal. now apply run_sequential_from_sid_stable.
Qed.

Lemma run_independent_of_hash_witness :
  @run_process (Ref.lib Sample.net_up [] Sample.export_with_sid)
    Sample.hash_a (Sample.cfg 3) "" Sample.empty_disk
  = @run_process (Ref.lib Sample.net_up [] Sample.export_with_sid)
      Sample.hash_b (Sample.cfg 3) "" Sample.empty_disk.
Proof.
  apply (@run_independent_of_hash (Ref.lib Sample.net_up [] Sample.export_with_sid)
           Sample.hash_a Sample.hash_b (Sample.cfg 3) "" Sample.empty_disk).
  intros m [<-|[]]. vm_compute. reflexivity.
Defined.

(** * The metadata setter *)

(** ** Dates in file names *)

Lemma pad2_reads_all (n : Z) : 0 <= n < 100 -> Meta.pad2_reads n = true.
Proof.
  intros H.
  assert (Hall : forallb (fun k => Meta.pad2_reads (Z.of_nat k)) (seq 0 100) = true)
    by (vm_compute; reflexivity).
  rewrite forallb_forall in Hall.
  specialize (Hall (Z.to_nat n)). rewrite Z2Nat.id in Hall by lia.
  apply Hall, in_seq. lia.
Qed.

Lemma pad4_reads_all (n : Z) : 0 <= n < 10000 -> Meta.pad4_reads n = true.
Proof.
  intros H.
  assert (Hall : forallb (fun k => Meta.pad4_reads (Z.of_nat k)) (seq 0 (Z.to_nat 10000)) = true)
    by (vm_compute; reflexivity).
  rewrite forallb_forall in Hall.
  specialize (Hall (Z.to_nat n)). rewrite Z2Nat.id in Hall by lia.
  apply Hall, in_seq. lia.
Qed.

Lemma read_pad2 (n : Z) (rest : string) :
  0 <= n < 100 -> Meta.read_digits 2 0 (Ref.pad2 n +:+ rest) = Some (n, rest).
Proof.
  intros H%pad2_reads_all. unfold Meta.pad2_reads in H.
  destruct (Ref.pad2 n) as [|a [|b [|]]]; try discriminate.
  destruct (Ref.digit a) as [x|] eqn:Ha; try discriminate.
  destruct (Ref.digit b) as [y|] eqn:Hb; try discriminate.
  apply Z.eqb_eq in H. simpl. rewrite Ha, Hb. now rewrite <- H.
Qed.

Lemma read_pad4 (n : Z) (rest : string) :
  0 <= n < 10000 -> Meta.read_digits 4 0 (Ref.pad4 n +:+ rest) = Some (n, rest).
Proof.
  intros H%pad4_reads_all. unfold Meta.pad4_reads in H.
  destruct (Ref.pad4 n) as [|a [|b [|c [|d [|]]]]]; try discriminate.
  destruct (Ref.digit a) as [x|] eqn:Ha; try discriminate.
  destruct (Ref.digit b) as [y|] eqn:Hb; try discriminate.
  destruct (Ref.digit c) as [z|] eqn:Hc; try discriminate.
  destruct (Ref.digit d) as [t|] eqn:Hd; try discriminate.
  apply Z.eqb_eq in H. simpl. rewrite Ha, Hb, Hc, Hd. now rewrite <- H.
Qed.

Lemma read_char_app (c : ascii) (rest : string) :
  Meta.read_char c (String c "" +:+ rest) = Some rest.
Proof. simpl. now rewrite Ascii.eqb_refl. Qed.

Lemma days_in_month_le (y m : Z) : Ref.days_in_month y m <= 31.
Proof.
  unfold Ref.days_in_month.
  repeat match goal with |- context [if ?b then _ else _] => destruct b end; lia.
Qed.

Lemma match_stamp_format (dt : Ref.DateTime) (rest : string) :
  Meta.valid dt ->
  Meta.match_stamp (Ref.format_datetime dt +:+ rest)
  = Some (Ref.year dt, Ref.month dt, Ref.day dt,
          Ref.hour dt, Ref.minute dt, Ref.second dt).
Proof.
  intros (Hy & Hmo & Hd & Hh & Hmi & Hs).
  pose proof (days_in_month_le (Ref.year dt) (Ref.month dt)) as Hdim.
  unfold Ref.format_datetime, Meta.match_stamp.
  rewrite !append_assoc.
  rewrite read_pad4 by lia. rewrite read_char_app.
  rewrite read_pad2 by lia. rewrite read_char_app.
  rewrite read_pad2 by lia. rewrite read_char_app.
  rewrite read_pad2 by lia. rewrite read_char_app.
  rewrite read_pad2 by lia. rewrite read_char_app.
  now rewrite read_pad2 by lia.
Qed.

Lemma make_datetime_valid (dt : Ref.DateTime) :
  Meta.valid dt ->
  Meta.make_datetime (Ref.year dt) (Ref.month dt) (Ref.day dt)
    (Ref.hour dt) (Ref.minute dt) (Ref.second dt) = Some dt.
Proof.
  intros (Hy & Hmo & Hd & Hh & Hmi & Hs). unfold Meta.make_datetime.
  repeat match goal with
         | |- context [?a <=? ?b] =>
             replace (a <=? b) with true by (symmetry; apply Z.leb_le; lia)
         end.
  simpl. now destruct dt.
Qed.

Lemma parse_date_of_format (dt : Ref.DateTime) (rest : string) :
  Meta.valid dt ->
  Meta.parse_date_from_filename (Ref.format_datetime dt +:+ rest) = Some dt.
Proof.
  intros H. unfold Meta.parse_date_from_filename.
  rewrite match_stamp_format by exact H. now apply make_datetime_valid.
Qed.

Lemma make_datetime_some (y mo d h mi s : Z) (dt : Ref.DateTime) :
  Meta.make_datetime y mo d h mi s = Some dt ->
  Meta.valid dt /\
  dt = {| Ref.year := y; Ref.month := mo; Ref.day := d;
          Ref.hour := h; Ref.minute := mi; Ref.second := s |}.
Proof.
  unfold Meta.make_datetime, Meta.valid.
  destruct (_ && _) eqn:Hb; [|discriminate].
  intros [= <-]. simpl.
  repeat (apply andb_prop in Hb; destruct Hb as [Hb ?]).
  repeat match goal with H : (_ <=? _) = true |- _ => apply Z.leb_le in H end.
  split; [lia | reflexivity].
Qed.

Lemma read_digits_length (n : nat) (acc v : Z) (s s' : string) :
  Meta.read_digits n acc s = Some (v, s') ->
  String.length s = (n + String.length s')%nat.
Proof.
  revert acc s. induction n as [|n IH]; intros acc s; simpl.
  - now intros [= _ ->].
  - destruct s as [|c s]; [discriminate|].
    destruct (Ref.digit c); [|discriminate].
    intros H%IH. simpl. now rewrite H.
Qed.

Lemma read_char_length (c : ascii) (s s' : string) :
  Meta.read_char c s = Some s' -> String.length s = S (String.length s').
Proof.
  destruct s as [|x s]; simpl; [discriminate|].
  destruct (Ascii.eqb x c); [|discriminate]. now intros [= ->].
Qed.

Lemma read_char_head (c : ascii) (s s' : string) :
  Meta.read_char c s = Some s' -> s = String c s'.
Proof.
  destruct s as [|x s]; simpl; [discriminate|].
  destruct (Ascii.eqb_spec x c); [|discriminate]. intros [= ->]. now subst.
Qed.

Lemma match_stamp_length (f : string) (v : Z * Z * Z * Z * Z * Z) :
  Meta.match_stamp f = Some v -> (19 <= String.length f)%nat.
Proof.
  unfold Meta.match_stamp.
  repeat match goal with
         | |- context [match Meta.read_digits ?n ?a ?s with _ => _ end] =>
             let H := fresh "Hd" in
             destruct (Meta.read_digits n a s) as [[? ?]|] eqn:H;
             [apply read_digits_length in H|discriminate]
         | |- context [match Meta.read_char ?c ?s with _ => _ end] =>
             let H := fresh "Hc" in
             destruct (Meta.read_char c s) as [?|] eqn:H;
             [apply read_char_length in H|discriminate]
         end.
  intros _. lia.
Qed.

(** The name the downloader builds starts with its date part. *)
Lemma generate_filename_head `{lib : PyLib} (py_hash : string -> Z) (m : Memory) :
  generate_filename py_hash m
  = date_part m +:+ ("_" +:+ unique_part py_hash m +:+ "." +:+ extension m).
Proof. reflexivity. Qed.

Lemma parse_date_unknown (rest : string) :
  Meta.parse_date_from_filename ("unknown_date" +:+ rest) = None.
Proof. reflexivity. Qed.

Lemma number_bounds (s : string) (acc n : Z) :
  0 <= acc -> Ref.number acc s = Some n ->
  0 <= n < (acc + 1) * 10 ^ Z.of_nat (String.length s).
Proof.
  revert acc. induction s as [|c s IH]; intros acc Hacc; simpl String.length.
  - simpl. intros [= <-]. lia.
  - simpl Ref.number. unfold Ref.digit at 1.
    destruct (_ && _) eqn:Hb; [|discriminate].
    apply andb_prop in Hb as [H1%Nat.leb_le H2%Nat.leb_le].
    intros H%IH; [|lia].
    rewrite Nat2Z.inj_succ, Z.pow_succ_r by lia.
    assert (0 < 10 ^ Z.of_nat (String.length s)) by (apply Z.pow_pos_nonneg; lia).
    nia.
Qed.

Lemma substring_length_le (start len : nat) (s : string) :
  (String.length (String.substring start len s) <= len)%nat.
Proof.
  revert start len. induction s as [|c s IH]; intros [|start] [|len]; simpl; try lia.
  - specialize (IH 0%nat len). lia.
  - apply (IH start 0%nat).
  - apply (IH start (S len)).
Qed.

Lemma field_bounds (start len : nat) (s : string) (n : Z) :
  Ref.field start len s = Some n -> 0 <= n < 10 ^ Z.of_nat len.
Proof.
  unfold Ref.field. intros H%number_bounds; [|lia].
  pose proof (substring_length_le start len s) as Hlen.
  assert (10 ^ Z.of_nat (String.length (String.substring start len s))
          <= 10 ^ Z.of_nat len) by (apply Z.pow_le_mono_r; lia).
  lia.
Qed.

Lemma parse_datetime_valid (s : string) (dt : Ref.DateTime) :
  Ref.parse_datetime s = Ret dt -> Meta.valid dt.
Proof.
  unfold Ref.parse_datetime.
  destruct (negb _); [discriminate|].
  destruct (Ref.field 0 4 s) as [y|] eqn:Hy; [|discriminate].
  destruct (Ref.field 5 2 s) as [mo|] eqn:Hmo; [|discriminate].
  destruct (Ref.field 8 2 s) as [d|] eqn:Hd; [|discriminate].
  destruct (Ref.field 11 2 s) as [h|] eqn:Hh; [|discriminate].
  destruct (Ref.field 14 2 s) as [mi|] eqn:Hmi; [|discriminate].
  destruct (Ref.field 17 2 s) as [sec|] eqn:Hsec; [|discriminate].
  destruct (_ && _) eqn:Hb; [|discriminate].
  intros [= <-]. unfold Meta.valid. simpl.
  repeat (apply andb_prop in Hb; destruct Hb as [Hb ?]).
  repeat match goal with H : (_ <=? _) = true |- _ => apply Z.leb_le in H end.
  apply field_bounds in Hy, Hmo, Hd, Hh, Hmi, Hsec.
  change (10 ^ Z.of_nat 4) with 10000 in Hy.
  change (10 ^ Z.of_nat 2) with 100 in *.
  lia.
Qed.

(** X17: the date and time that [strftime] wrote at the head of a file
    name are the ones [parse_date_from_filename] reads back, whatever
    follows them (for the years every platform writes with four
    digits). *)
Theorem parse_date_reads_stamp (dt : Ref.DateTime) (rest : string) :
  Meta.valid dt -> 1000 <= Ref.year dt ->
  Meta.parse_date_from_filename (Ref.format_datetime dt +:+ rest) = Some dt.
Proof. intros H _. now apply parse_date_of_format. Qed.

Lemma parse_date_reads_stamp_witness :
  Meta.parse_date_from_filename "2021-03-04_05-06-07_0a1b2c3d4e5f6a7b.jpg"
  = Some {| Ref.year := 2021; Ref.month := 3; Ref.day := 4;
            Ref.hour := 5; Ref.minute := 6; Ref.second := 7 |}.
Proof.
  apply (parse_date_reads_stamp
           {| Ref.year := 2021; Ref.month := 3; Ref.day := 4;
              Ref.hour := 5; Ref.minute := 6; Ref.second := 7 |}
           "_0a1b2c3d4e5f6a7b.jpg").
  - vm_compute; repeat split; discriminate.
  - vm_compute; discriminate.
Defined.

(** X18: [parse_date_from_filename] only returns a date and time of the
    calendar (never a month 13 or a 30th of February), made of the numbers
    at the head of the name, and only for a name of at least 19
    characters. *)
Theorem parse_date_is_valid (filename : string) (dt : Ref.DateTime) :
  Meta.parse_date_from_filename filename = Some dt ->
  Meta.valid dt /\
  Meta.match_stamp filename
  = Some (Ref.year dt, Ref.month dt, Ref.day dt,
          Ref.hour dt, Ref.minute dt, Ref.second dt) /\
  (19 <= String.length filename)%nat.
Proof.
  unfold Meta.parse_date_from_filename.
  destruct (Meta.match_stamp filename) as [[[[[[y mo] d] h] mi] s]|] eqn:Hm;
    [|discriminate].
  intros [Hv ->]%make_datetime_some. simpl.
  repeat split; try apply Hv. eapply match_stamp_length, Hm.
Qed.

Lemma parse_date_is_valid_witness :
  Meta.valid {| Ref.year := 2024; Ref.month := 2; Ref.day := 29;
                Ref.hour := 23; Ref.minute := 59; Ref.second := 59 |} /\
  Meta.parse_date_from_filename "2023-02-29_23-59-59_x.jpg" = None.
Proof.
  split; [|reflexivity].
  apply (parse_date_is_valid "2024-02-29_23-59-59_x.jpg"). vm_compute; reflexivity.
Defined.

(** ** Files and counters *)

Section SetterFacts.
Context {lib : Meta.MetaLib}.
Variable force : bool.

Lemma has_exif_date_result (p : Path) (w : Meta.World) :
  Meta.has_exif_date force p w
  = (Ret (negb force &&
          bool_decide (is_Some (Meta.tag_of (Meta.exif_of (Meta.files w !! p))
                                  "Exif" Meta.DateTimeOriginal))), w).
Proof.
  unfold Meta.has_exif_date, Meta.mcatch, Meta.mbind, Meta.load_at, Meta.mret,
    Meta.exif_of, Meta.tag_of.
  destruct force; [reflexivity|]. cbn [negb andb].
  destruct (Meta.piexif_load _) as [d|e].
  - destruct (d !! "Exif") as [tags|]; cbn [from_option id mbind option_bind].
    + destruct (tags !! Meta.DateTimeOriginal) eqn:Ht.
      * rewrite bool_decide_eq_true_2 by eauto. reflexivity.
      * rewrite bool_decide_eq_false_2 by (intros [? [=]]). reflexivity.
    + rewrite lookup_empty. rewrite bool_decide_eq_false_2 by (intros [? [=]]).
      reflexivity.
  - rewrite bool_decide_eq_false_2; [reflexivity|]. intros [? H]. revert H.
    vm_compute. discriminate.
Qed.

Lemma set_image_metadata_eq (p : Path) (dt : Ref.DateTime) (w : Meta.World) :
  Meta.set_image_metadata force p dt w
  = match Meta.has_exif_date force p w with
    | (Ret true, _) => (Ret Meta.SkippedFile, w)
    | _ =>
        let failure e :=
          (Raise (LibError ("Failed to set image EXIF data: " +:+ str_of_exn e)), w) in
        match Meta.stamped (Meta.exif_stamp dt) (Meta.exif_of (Meta.files w !! p)) with
        | Ret d' =>
            match Meta.piexif_dump d' with
            | Ret exif_bytes =>
                match Meta.piexif_insert exif_bytes (Meta.files w !! p) with
                | Ret data' =>
                    (Ret Meta.Success, Meta.set_files (<[p := data']> (Meta.files w)) w)
                | Raise e => failure e
                end
            | Raise e => failure e
            end
        | Raise e => failure e
        end
    end.
Proof.
  unfold Meta.set_image_metadata. unfold Meta.mbind at 1.
  rewrite has_exif_date_result.
  destruct (_ && _); [reflexivity|].
  unfold Meta.mcatch, Meta.mbind, Meta.load_at, Meta.insert_at, Meta.mret,
    Meta.mraise, Meta.exif_of.
  destruct (Meta.piexif_load _) as [d|e];
    (destruct (Meta.stamped _ _); [|reflexivity]);
    (destruct (Meta.piexif_dump _); [|reflexivity]);
    (destruct (Meta.piexif_insert _ _); reflexivity).
Qed.

Lemma set_image_metadata_cases (p : Path) (dt : Ref.DateTime) (w : Meta.World) :
  (Meta.has_exif_date force p w = (Ret true, w) /\
   Meta.set_image_metadata force p dt w = (Ret Meta.SkippedFile, w)) \/
  (Meta.has_exif_date force p w = (Ret false, w) /\
   exists e, Meta.set_image_metadata force p dt w = (Raise e, w)) \/
  (Meta.has_exif_date force p w = (Ret false, w) /\
   exists d' exif_bytes data',
     Meta.stamped (Meta.exif_stamp dt) (Meta.exif_of (Meta.files w !! p)) = Ret d' /\
     Meta.piexif_dump d' = Ret exif_bytes /\
     Meta.piexif_insert exif_bytes (Meta.files w !! p) = Ret data' /\
     Meta.set_image_metadata force p dt w
     = (Ret Meta.Success, Meta.set_files (<[p := data']> (Meta.files w)) w)).
Proof.
  rewrite set_image_metadata_eq, has_exif_date_result.
  destruct (_ && _); [left; split; reflexivity|]. right.
  destruct (Meta.stamped _ _) as [d'|e1]; [|left; split; eauto].
  destruct (Meta.piexif_dump d') as [exif_bytes|e2] eqn:Hdump;
    [|left; split; eauto].
  destruct (Meta.piexif_insert exif_bytes _) as [data'|e3] eqn:Hins;
    [|left; split; eauto].
  right. split; [reflexivity|]. exists d', exif_bytes, data'. auto.
Qed.

Lemma set_video_metadata_cases (p : Path) (dt : Ref.DateTime) (w : Meta.World) :
  (exists e, Meta.set_video_metadata p dt w = (Raise e, w)) \/
  (exists data',
     Meta.exiftool (Meta.exif_stamp dt) (Meta.files w !! p) = Meta.ToolDone data' /\
     Meta.set_video_metadata p dt w
     = (Ret Meta.Success, Meta.set_files (<[p := data']> (Meta.files w)) w)).
Proof.
  unfold Meta.set_video_metadata.
  destruct (Meta.exiftool _ _); eauto.
Qed.

(** What [process_file] can do to the world. *)
Lemma process_file_cases (p : Path) (w : Meta.World) :
  (exists r err, Meta.process_file force p w = (Ret (r, err), w) /\
                 r <> Meta.Success /\
                 (r = Meta.FailedFile -> is_Some err)) \/
  (exists data', Meta.process_file force p w
                 = (Ret (Meta.Success, None),
                    Meta.set_files (<[p := data']> (Meta.files w)) w)).
Proof.
  unfold Meta.process_file.
  destruct (Meta.parse_date_from_filename (snd p)) as [dt|].
  2:{ left. do 2 eexists. split; [reflexivity|]. split; [discriminate|discriminate]. }
  unfold Meta.mcatch, Meta.mbind, Meta.mret.
  destruct (_ || _).
  - destruct (set_image_metadata_cases p dt w)
      as [[_ ->]|[[_ [e ->]]|[_ (d' & eb & data' & _ & _ & _ & ->)]]].
    + left. do 2 eexists. split; [reflexivity|]. split; discriminate.
    + left. do 2 eexists. split; [reflexivity|]. split; [discriminate|eauto].
    + right. eauto.
  - destruct (_ || _).
    + destruct (set_video_metadata_cases p dt w) as [[e ->]|(data' & _ & ->)].
      * left. do 2 eexists. split; [reflexivity|]. split; [discriminate|eauto].
      * right. eauto.
    + left. do 2 eexists. split; [reflexivity|]. split; discriminate.
Qed.

End SetterFacts.

Lemma set_tag_spec (ifd : string) (tag : Z) (v : string) (d d' : Meta.ExifDict) :
  Meta.set_tag ifd tag v d = Ret d' ->
  forall i t,
    Meta.tag_of d' i t
    = if String.eqb i ifd && (t =? tag) then Some v else Meta.tag_of d i t.
Proof.
  unfold Meta.set_tag. destruct (d !! ifd) as [tags|] eqn:Hd; [|discriminate].
  intros [= <-] i t. unfold Meta.tag_of, Meta.ExifDict in *.
  destruct (String.eqb_spec i ifd) as [Heq|Hne]; simpl andb.
  - subst i. rewrite lookup_insert_eq, Hd. simpl.
    destruct (Z.eqb_spec t tag) as [Ht|Ht].
    + subst t. now rewrite lookup_insert_eq.
    + now rewrite lookup_insert_ne by congruence.
  - now rewrite lookup_insert_ne by congruence.
Qed.

Lemma stamped_spec (stamp : string) (d d' : Meta.ExifDict) :
  Meta.stamped stamp d = Ret d' ->
  forall i t,
    Meta.tag_of d' i t
    = if Meta.date_tag i t then Some stamp else Meta.tag_of d i t.
Proof.
  unfold Meta.stamped, rbind.
  destruct (Meta.set_tag "Exif" _ _ d) as [d1|] eqn:H1; [|discriminate].
  destruct (Meta.set_tag "Exif" _ _ d1) as [d2|] eqn:H2; [|discriminate].
  intros H3 i t.
  rewrite (set_tag_spec _ _ _ _ _ H3), (set_tag_spec _ _ _ _ _ H2),
    (set_tag_spec _ _ _ _ _ H1).
  unfold Meta.date_tag.
  destruct (String.eqb i "Exif"), (String.eqb i "0th"),
    (t =? Meta.DateTimeOriginal), (t =? Meta.DateTimeDigitized),
    (t =? Meta.DateTime); reflexivity.
Qed.

Lemma handle_file_effect `{lib : Meta.MetaLib} (force verbose : bool)
    (p : Path) (w : Meta.World) :
  exists w',
    Meta.handle_file force verbose p w = (Ret tt, w') /\
    Meta.total (Meta.stats w') = Meta.total (Meta.stats w) /\
    Meta.counted (Meta.stats w') = Meta.counted (Meta.stats w) + 1 /\
    Meta.processed (Meta.stats w) <= Meta.processed (Meta.stats w') /\
    (forall q, q <> p -> Meta.files w' !! q = Meta.files w !! q) /\
    (Meta.processed (Meta.stats w') = Meta.processed (Meta.stats w) ->
     Meta.files w' = Meta.files w).
Proof.
  unfold Meta.handle_file. unfold Meta.mbind at 1.
  destruct (process_file_cases force p w) as [(r & err & -> & Hr & _)|[data' ->]].
  - unfold Meta.mbind, Meta.mret, Meta.emit, Meta.counted.
    destruct r; [congruence| |].
    + destruct err as [msg|]; [destruct (PyStr.truthy msg && verbose)|];
        (eexists; split; [reflexivity|]; simpl; repeat split; auto; lia).
    + eexists; split; [reflexivity|]; simpl; repeat split; auto; lia.
  - unfold Meta.mbind, Meta.mret, Meta.emit, Meta.counted.
    eexists; split; [reflexivity|]. simpl. repeat split; try lia.
    intros q Hq. now rewrite lookup_insert_ne by congruence.
Qed.

Lemma handle_files_effect `{lib : Meta.MetaLib} (force verbose : bool)
    (l : list Path) (w : Meta.World) :
  exists w',
    Meta.handle_files force verbose l w = (Ret tt, w') /\
    Meta.total (Meta.stats w') = Meta.total (Meta.stats w) /\
    Meta.counted (Meta.stats w')
    = Meta.counted (Meta.stats w) + Z.of_nat (List.length l) /\
    Meta.processed (Meta.stats w) <= Meta.processed (Meta.stats w') /\
    (forall q, ~ In q l -> Meta.files w' !! q = Meta.files w !! q) /\
    (Meta.processed (Meta.stats w') = Meta.processed (Meta.stats w) ->
     Meta.files w' = Meta.files w).
Proof.
  revert w. induction l as [|p l IH]; intros w.
  - exists w. simpl. repeat split; auto; lia.
  - cbn [Meta.handle_files]. unfold Meta.mbind.
    destruct (handle_file_effect force verbose p w)
      as (w1 & -> & Ht1 & Hc1 & Hp1 & Hf1 & Hz1).
    destruct (IH w1) as (w2 & -> & Ht2 & Hc2 & Hp2 & Hf2 & Hz2).
    exists w2. split; [reflexivity|].
    cbn [List.length]. rewrite Nat2Z.inj_succ.
    repeat split; try lia.
    + intros q Hq. rewrite Hf2, Hf1; auto; intros ?; apply Hq; simpl; auto.
    + intros Hp. rewrite Hz2, Hz1; auto; lia.
Qed.

(** X19: a memory whose date the downloader could not read is saved
    under an [unknown_date] name, and the setter skips a file of that
    name without touching anything. *)
Theorem unknown_date_is_skipped `{lib : PyLib} `{mlib : Meta.MetaLib}
    (py_hash : string -> Z) (force : bool) (m : Memory) (e : exn)
    (dir : string) (w : Meta.World) :
  strptime (clean_date (date m)) = Raise e ->
  Meta.process_file force (dir, generate_filename py_hash m) w
  = (Ret (Meta.SkippedFile,
          Some ("Could not parse date from filename: "
                  +:+ generate_filename py_hash m)), w).
Proof.
  intros H. unfold Meta.process_file. cbn [snd].
  assert (Hd : date_part m = "unknown_date")
    by (unfold date_part, try_except, rbind; now rewrite H).
  assert (Hp : Meta.parse_date_from_filename (generate_filename py_hash m) = None)
    by (rewrite generate_filename_head, Hd; apply parse_date_unknown).
  now rewrite Hp.
Qed.

Lemma unknown_date_is_skipped_witness :
  let m := {| url := "https://app.snapchat.com/dmd/memories?uid=7&sid=0a1b";
              date := "yesterday"; media_type := "Image";
              is_get_request := true |} in
  @Meta.process_file Meta.sample_lib false
    ("out/images", @generate_filename Sample.lib_up Sample.hash_a m)
    (Meta.init_world Meta.sample_disk)
  = (Ret (Meta.SkippedFile,
          Some ("Could not parse date from filename: "
                  +:+ @generate_filename Sample.lib_up Sample.hash_a m)),
     Meta.init_world Meta.sample_disk).
Proof.
  intros m.
  apply (@unknown_date_is_skipped Sample.lib_up Meta.sample_lib Sample.hash_a
           false m (LibError "time data does not match format")).
  reflexivity.
Defined.

(** X20: with the reference [strptime] and [strftime], the setter reads
    from the name the downloader gave a file the very date and time the
    downloader read from the export, for the years [strftime] writes with
    four digits. *)
Theorem downloaded_name_is_dated (net : nat -> Request -> py_result Response)
    (archives : list Ref.Archive) (doc : string -> list (list Cell))
    (py_hash : string -> Z) (m : Memory) (dt : Ref.DateTime) :
  Ref.parse_datetime (clean_date (date m)) = Ret dt ->
  1000 <= Ref.year dt ->
  Meta.parse_date_from_filename
    (@generate_filename (Ref.lib net archives doc) py_hash m) = Some dt.
Proof.
  intros H _. rewrite generate_filename_head.
  assert (Hd : @date_part (Ref.lib net archives doc) m = Ref.format_datetime dt).
  { unfold date_part, try_except, rbind. cbn [strptime strftime Ref.lib].
    now rewrite H. }
  rewrite Hd. apply parse_date_of_format. eapply parse_datetime_valid, H.
Qed.

Lemma downloaded_name_is_dated_witness :
  Meta.parse_date_from_filename
    (@generate_filename Sample.lib_up Sample.hash_a Sample.with_sid)
  = Some {| Ref.year := 2021; Ref.month := 3; Ref.day := 4;
            Ref.hour := 5; Ref.minute := 6; Ref.second := 7 |}.
Proof.
  apply (downloaded_name_is_dated Sample.net_up [] Sample.no_rows Sample.hash_a
           Sample.with_sid).
  - vm_compute; reflexivity.
  - vm_compute; discriminate.
Defined.

(** X21: [process_file] never raises: it answers with a result, and an
    error text when the result is ['failed'].  It leaves the counters and
    every other file alone, and unless the result is ['success'] it leaves
    the whole world as it was. *)
Theorem process_file_frame `{lib : Meta.MetaLib} (force : bool)
    (p : Path) (w : Meta.World) :
  exists r err w',
    Meta.process_file force p w = (Ret (r, err), w') /\
    Meta.stats w' = Meta.stats w /\
    Meta.trace w' = Meta.trace w /\
    (forall q, q <> p -> Meta.files w' !! q = Meta.files w !! q) /\
    (r <> Meta.Success -> w' = w) /\
    (r = Meta.FailedFile -> is_Some err).
Proof.
  destruct (process_file_cases force p w) as [(r & err & -> & Hr & He)|[data' ->]].
  - exists r, err, w. repeat split; auto.
  - do 3 eexists. split; [reflexivity|]. simpl. repeat split; auto.
    + intros q Hq. now rewrite lookup_insert_ne by congruence.
    + congruence.
    + discriminate.
Qed.

(** X22: [run] never raises and counts every file it found exactly once:
    [processed + skipped + failed = total], the number of files found.  A
    file that was not found is not touched, and a run that reports no
    processed file has changed no file at all. *)
Theorem run_counts_every_file `{lib : Meta.MetaLib} (directory : string)
    (force verbose : bool) (disk : gmap Path bytes) :
  exists w',
    Meta.run directory force verbose (Meta.init_world disk) = (Ret tt, w') /\
    Meta.total (Meta.stats w')
    = Z.of_nat (List.length (Meta.find_media_files directory)) /\
    Meta.counted (Meta.stats w') = Meta.total (Meta.stats w') /\
    (forall q, ~ In q (Meta.find_media_files directory) ->
               Meta.files w' !! q = disk !! q) /\
    (Meta.processed (Meta.stats w') = 0 -> Meta.files w' = disk).
Proof.
  unfold Meta.run, Meta.mbind.
  set (w0 := Meta.set_stats _ _).
  destruct (handle_files_effect force verbose (Meta.find_media_files directory) w0)
    as (w' & Hrun & Ht & Hc & Hp & Hf & Hz).
  destruct (Meta.find_media_files directory) as [|p l] eqn:Hl.
  - exists w0. repeat split; auto.
  - exists w'. split; [exact Hrun|]. rewrite Ht, Hc.
    repeat split; auto; unfold w0, Meta.counted; simpl; lia.
Qed.

(** X23: without [--force], an image that already carries a
    [DateTimeOriginal] is skipped and nothing is written; with [--force]
    the same image is never skipped. *)
Theorem dated_image_is_kept `{lib : Meta.MetaLib} (p : Path)
    (dt : Ref.DateTime) (v : string) (w : Meta.World) :
  Meta.parse_date_from_filename (snd p) = Some dt ->
  Meta.is_image (snd p) = true ->
  Meta.tag_of (Meta.exif_of (Meta.files w !! p)) "Exif" Meta.DateTimeOriginal
  = Some v ->
  Meta.process_file false p w = (Ret (Meta.SkippedFile, None), w) /\
  forall err w', Meta.process_file true p w <> (Ret (Meta.SkippedFile, err), w').
Proof.
  intros Hdt Himg Htag. unfold Meta.process_file. rewrite Hdt.
  unfold Meta.is_image in Himg. rewrite Himg.
  unfold Meta.mcatch, Meta.mbind, Meta.mret. split.
  - destruct (set_image_metadata_cases false p dt w)
      as [[_ ->]|[[Hh _]|[Hh _]]]; [reflexivity| |];
      rewrite has_exif_date_result, Htag in Hh;
      rewrite bool_decide_eq_true_2 in Hh by eauto; discriminate.
  - intros err w'.
    destruct (set_image_metadata_cases true p dt w)
      as [[Hh _]|[[_ [e ->]]|[_ (d' & eb & data' & _ & _ & _ & ->)]]];
      [|discriminate|discriminate].
    rewrite has_exif_date_result in Hh. discriminate.
Qed.

Lemma dated_image_is_kept_witness :
  @Meta.process_file Meta.sample_lib false Meta.sample_dated
    (Meta.init_world Meta.sample_disk)
  = (Ret (Meta.SkippedFile, None), Meta.init_world Meta.sample_disk) /\
  forall err w',
    @Meta.process_file Meta.sample_lib true Meta.sample_dated
      (Meta.init_world Meta.sample_disk) <> (Ret (Meta.SkippedFile, err), w').
Proof.
  apply (@dated_image_is_kept Meta.sample_lib Meta.sample_dated
           {| Ref.year := 2021; Ref.month := 3; Ref.day := 4;
              Ref.hour := 5; Ref.minute := 6; Ref.second := 7 |}
           "2020:01:01 00:00:00").
  - vm_compute; reflexivity.
  - vm_compute; reflexivity.
  - vm_compute; reflexivity.
Defined.

(** X24: when [set_image_metadata] succeeds, the EXIF data it inserts
    into the file carry the stamp in [DateTimeOriginal],
    [DateTimeDigitized] and [DateTime], and every other tag as the file
    had it (as the empty default has it, if the file could not be
    loaded); no other file is written. *)
Theorem image_stamp_keeps_other_tags `{lib : Meta.MetaLib} (force : bool)
    (p : Path) (dt : Ref.DateTime) (w w' : Meta.World) :
  Meta.set_image_metadata force p dt w = (Ret Meta.Success, w') ->
  exists d' exif_bytes data',
    Meta.piexif_dump d' = Ret exif_bytes /\
    Meta.piexif_insert exif_bytes (Meta.files w !! p) = Ret data' /\
    w' = Meta.set_files (<[p := data']> (Meta.files w)) w /\
    forall ifd tag,
      Meta.tag_of d' ifd tag
      = if Meta.date_tag ifd tag then Some (Meta.exif_stamp dt)
        else Meta.tag_of (Meta.exif_of (Meta.files w !! p)) ifd tag.
Proof.
  intros H.
  destruct (set_image_metadata_cases force p dt w)
    as [[_ Heq]|[[_ [e Heq]]|[_ (d' & eb & data' & Hst & Hdump & Hins & Heq)]]];
    rewrite Heq in H; try discriminate.
  injection H as <-. exists d', eb, data'. repeat split; auto.
  now apply stamped_spec.
Qed.

Lemma image_stamp_keeps_other_tags_witness :
  exists d' exif_bytes data',
    @Meta.piexif_dump Meta.sample_lib d' = Ret exif_bytes /\
    @Meta.piexif_insert Meta.sample_lib exif_bytes
      (Meta.sample_disk !! Meta.sample_undated) = Ret data' /\
    forall ifd tag,
      Meta.tag_of d' ifd tag
      = if Meta.date_tag ifd tag then Some "2021:03:04 05:06:07"
        else Meta.tag_of
               (@Meta.exif_of Meta.sample_lib (Meta.sample_disk !! Meta.sample_undated))
               ifd tag.
Proof.
  destruct (@image_stamp_keeps_other_tags Meta.sample_lib false Meta.sample_undated
              {| Ref.year := 2021; Ref.month := 3; Ref.day := 4;
                 Ref.hour := 5; Ref.minute := 6; Ref.second := 7 |}
              (Meta.init_world Meta.sample_disk)
              (snd (@Meta.set_image_metadata Meta.sample_lib false Meta.sample_undated
                      {| Ref.year := 2021; Ref.month := 3; Ref.day := 4;
                         Ref.hour := 5; Ref.minute := 6; Ref.second := 7 |}
                      (Meta.init_world Meta.sample_disk))))
    as (d' & eb & data' & Hdump & Hins & _ & Htags).
  - vm_compute; reflexivity.
  - exists d', eb, data'. repeat split; [exact Hdump | exact Hins | exact Htags].
Defined.
